(** * djangocms_url_manager.forms: a shallow embedding

    The module [forms.py] holds three Django forms: [UrlForm], its subclass
    [UrlOverrideForm] and [HtmlLinkForm].  Their [clean] and [save] methods
    read and mutate the form object ([self.cleaned_data], [self.errors],
    [self.instance]) and query the database through the ORM.

    The embedding threads one explicit state, [World], made of the form
    object and the database, through a small state-and-exception monad.
    A Python [dict] is a [gmap]; a Python exception is a constructor of
    [exn]; [try ... except C: ...] is [try_except]. *)

From Stdlib Require Import ZArith Ascii String.
From stdpp Require Import base option list strings gmap.

Open Scope Z_scope.
Open Scope string_scope.

(** ** Python values *)

(** A row of [django.contrib.sites.models.Site]; [str(site)] is its domain. *)
Record Site := mkSite { site_pk : Z; domain : string }.

(** An instance of one of the supported models: the id of its content type,
    its primary key and, for a model with a [site] foreign key, that key. *)
Record Obj := mkObj { obj_ct : Z; obj_pk : Z; obj_site : option Z }.

(** The values that cleaned data and instance attributes hold.  [VUrl] is a
    saved [Url] row, of which the forms read the [site] only. *)
Inductive value :=
| VNone
| VStr (s : string)
| VInt (z : Z)
| VSite (s : Site)
| VObj (o : Obj)
| VUrl (pk : Z) (site : Site)
| VGrouper (pk : Z).

#[global] Instance Site_eq_dec : EqDecision Site.
Proof. solve_decision. Defined.
#[global] Instance Obj_eq_dec : EqDecision Obj.
Proof. solve_decision. Defined.
#[global] Instance value_eq_dec : EqDecision value.
Proof. solve_decision. Defined.

(** Python truth value: [None] and the empty string are false, [0] is false,
    model instances are true. *)
Definition truthy (v : value) : bool :=
  match v with
  | VNone => false
  | VStr s => negb (String.eqb s "")
  | VInt z => negb (z =? 0)%Z
  | _ => true
  end.

(** [str(v)], as [str.format] applies it. *)
Definition py_str (v : value) : string :=
  match v with
  | VNone => "None"
  | VStr s => s
  | VInt _ => "<int>"
  | VSite s => domain s
  | VObj _ => "<object>"
  | VUrl _ _ => "<Url>"
  | VGrouper _ => "<UrlGrouper>"
  end.

(** [Model.__eq__] on two saved rows of one model compares primary keys. *)
Definition site_eq (a b : Site) : bool := (site_pk a =? site_pk b)%Z.

(** ** [int(str)] *)

Definition is_space (c : ascii) : bool :=
  let n := nat_of_ascii c in
  ((9 <=? n) && (n <=? 13) || (28 <=? n) && (n <=? 32))%nat.

Definition digit_val (c : ascii) : option Z :=
  let n := nat_of_ascii c in
  if ((48 <=? n) && (n <=? 57))%nat then Some (Z.of_nat n - 48) else None.

Fixpoint lstrip (l : list ascii) : list ascii :=
  match l with
  | c :: r => if is_space c then lstrip r else l
  | [] => []
  end.

Definition strip (l : list ascii) : list ascii := rev (lstrip (rev (lstrip l))).

(** Decimal digits, single underscores allowed between two digits. *)
Fixpoint parse_digits (acc : Z) (after_digit : bool) (l : list ascii) : option Z :=
  match l with
  | [] => if after_digit then Some acc else None
  | c :: r =>
      if Ascii.eqb c "_" then
        if after_digit then parse_digits acc false r else None
      else
        match digit_val c with
        | Some d => parse_digits (10 * acc + d) true r
        | None => None
        end
  end.

(** [int(s)] for an ASCII string [s]: [None] stands for [ValueError]. *)
Definition py_int (s : string) : option Z :=
  match strip (list_ascii_of_string s) with
  | c :: r =>
      if Ascii.eqb c "+" then parse_digits 0 false r
      else if Ascii.eqb c "-" then Z.opp <$> parse_digits 0 false r
      else parse_digits 0 false (c :: r)
  | [] => None
  end.

(** ** Exceptions *)

(** [ValidationError field message] is [ValidationError({field: message})],
    the one shape in which the module raises it. *)

Inductive exn :=
| KeyError (key : string)
| ValueError (msg : string)
| TypeError
| AttributeError
| ObjectDoesNotExist
| OverflowError
| ValidationError (field : string) (message : string).

(** ** The database *)

Inductive model_class := UrlModel | UrlOverrideModel | LinkPluginModel.

#[global] Instance model_class_eq_dec : EqDecision model_class.
Proof. solve_decision. Defined.

(** A model instance in memory: its class and its attributes by name. *)
Record Instance := mkInstance {
  klass : model_class;
  attrs : gmap string value;
}.

(** A supported model class: its table (primary key to the [site] column,
    [None] where the column is null or missing), the [on_site] method of
    its manager when the manager has one (which primary keys it keeps for a
    site), and whether the class has a [site] attribute. *)
Record Model := mkModel {
  objects : gmap Z (option Z);
  on_site : option (value -> Z -> bool);
  has_site : bool;
}.

(** A row of [ContentType] with the model class it stands for. *)
Record ContentType := mkContentType { ct_id : Z; model_class_of : Model }.

(** The columns of a saved [Url] that the forms query. *)
Record UrlRow := mkUrlRow {
  row_pk : Z;
  row_content_type : option Z;
  row_object_id : option Z;
  row_url_grouper : option Z;
}.

#[global] Instance UrlRow_eq_dec : EqDecision UrlRow.
Proof. solve_decision. Defined.

Record DB := mkDB {
  content_types : gmap Z Model;
  url_table : list UrlRow;
  override_table : list UrlRow;
  url_groupers : list Z;
}.

(** ** The form object *)

(** [class_name] is [self.__class__.__name__], [fields] are the keys of
    [self.fields], [data] is the submitted [self.data], [cleaned_data] and
    [errors] are as field cleaning left them when [clean] is entered. *)
Record Form := mkForm {
  class_name : string;
  fields : list string;
  data : gmap string string;
  cleaned_data : gmap string value;
  errors : gmap string (list string);
  instance : Instance;
}.

Record World := mkWorld { self : Form; db : DB }.

Definition set_cleaned_data (d : gmap string value) (w : World) : World :=
  mkWorld (mkForm (class_name (self w)) (fields (self w)) (data (self w)) d (errors (self w))
             (instance (self w))) (db w).

Definition set_errors (e : gmap string (list string)) (w : World) : World :=
  mkWorld (mkForm (class_name (self w)) (fields (self w)) (data (self w)) (cleaned_data (self w)) e
             (instance (self w))) (db w).

Definition set_instance (i : Instance) (w : World) : World :=
  mkWorld (mkForm (class_name (self w)) (fields (self w)) (data (self w)) (cleaned_data (self w))
             (errors (self w)) i) (db w).

Definition set_db (d : DB) (w : World) : World := mkWorld (self w) d.

(** ** The monad *)

(** A run ends with a value or with a raised exception; either way the
    mutations made so far stay. *)
Inductive outcome (A : Type) :=
| Return (a : A) (w : World)
| Raise (e : exn) (w : World).
Arguments Return {A} a w.
Arguments Raise {A} e w.

Definition M (A : Type) := World -> outcome A.

Definition ret {A} (a : A) : M A := fun w => Return a w.
Definition raise {A} (e : exn) : M A := fun w => Raise e w.
Definition bind {A B} (c : M A) (k : A -> M B) : M B :=
  fun w => match c w with
           | Return a w' => k a w'
           | Raise e w' => Raise e w'
           end.

#[global] Instance M_ret : MRet M := @ret.
#[global] Instance M_bind : MBind M := fun A B k c => bind c k.

Definition get_world : M World := fun w => Return w w.
Definition modify (f : World -> World) : M unit := fun w => Return tt (f w).

(** [try: body except <classes>: handler]: [handler e] is [None] when no
    [except] clause matches [e].  An exception raised by a handler is not
    caught by the sibling clauses. *)
Definition try_except {A} (body : M A) (handler : exn -> option (M A)) : M A :=
  fun w => match body w with
           | Return a w' => Return a w'
           | Raise e w' =>
               match handler e with
               | Some h => h w'
               | None => Raise e w'
               end
           end.

(** ** Django's form machinery, as far as the forms rely on it *)

Definition NON_FIELD_ERRORS : string := "__all__".

(** [self.cleaned_data.get(key)] *)
Definition cleaned_get (key : string) : M value :=
  fun w => Return (default VNone (cleaned_data (self w) !! key)) w.

(** [self.cleaned_data[key]] *)
Definition cleaned_getitem (key : string) : M value :=
  fun w => match cleaned_data (self w) !! key with
           | Some v => Return v w
           | None => Raise (KeyError key) w
           end.

(** [self.cleaned_data[key] = v] *)
Definition cleaned_setitem (key : string) (v : value) : M unit :=
  modify (fun w => set_cleaned_data (<[key := v]> (cleaned_data (self w))) w).

(** [self.data[key]]: a [QueryDict] raises [MultiValueDictKeyError], a
    [KeyError], on a key that was not submitted. *)
Definition data_getitem (key : string) : M string :=
  fun w => match data (self w) !! key with
           | Some s => Return s w
           | None => Raise (KeyError key) w
           end.

(** One round of the loop of [BaseForm.add_error]: a field that has no
    errors yet must be a field of the form (or [NON_FIELD_ERRORS]), else
    [ValueError]; the messages are appended to the field's error list and
    the field leaves [cleaned_data]. *)
Definition add_error_list (field : string) (msgs : list string) : M unit :=
  fun w =>
    let f := self w in
    let record (old : list string) :=
      Return tt (set_cleaned_data (delete field (cleaned_data f))
                   (set_errors (<[field := (old ++ msgs)%list]> (errors f)) w)) in
    match errors f !! field with
    | Some old => record old
    | None =>
        if bool_decide (field ≠ NON_FIELD_ERRORS) && bool_decide (field ∉ fields f)
        then Raise (ValueError ("'" +:+ class_name f +:+ "' has no field named '"
                                 +:+ field +:+ "'.")) w
        else record []
    end.

(** [self.add_error(field, message)] for a field name and one message. *)
Definition add_error (field : string) (msg : string) : M unit :=
  add_error_list field [msg].

(** [BaseForm._clean_form]: a [ValidationError] raised by [clean] goes to
    [self.add_error(None, e)], which files the message of a dict-shaped
    error under its field; any other exception leaves the form machinery. *)
Definition _clean_form (clean : M unit) : M unit :=
  try_except clean
    (fun e => match e with
              | ValidationError field msg => Some (add_error_list field [msg])
              | _ => None
              end).

(** [setattr(instance, name, v)] *)
Definition setattr (i : Instance) (name : string) (v : value) : Instance :=
  mkInstance (klass i) (<[name := v]> (attrs i)).

(** [getattr(instance, name)] for a field of the model: unset is [None]. *)
Definition getattr (i : Instance) (name : string) : value :=
  default VNone (attrs i !! name).

(** Modelled from the spec: the columns of [Url] and [UrlOverride] that a
    form field can edit ([models.py] is not among the sources); [url_type]
    and [content_object] are no columns. *)
Definition Url_model_fields : list string :=
  ["url"; "url_grouper"; "internal_name"; "site"; "manual_url";
   "relative_path"; "anchor"; "mailto"; "phone"].

(** [construct_instance]: every column that is a field of the form and
    a key of [cleaned_data] is copied to the instance. *)
Definition construct_instance : M unit :=
  modify (fun w =>
    let f := self w in
    set_instance
      (foldl (fun i name =>
                match cleaned_data f !! name with
                | Some v => if bool_decide (name ∈ fields f) then setattr i name v else i
                | None => i
                end) (instance f) Url_model_fields) w).

(** [BaseModelForm._post_clean], without the validators of the model. *)
Definition _post_clean : M unit := construct_instance.

(** [BaseForm.full_clean] from [_clean_form] on. *)
Definition full_clean (clean : M unit) : M unit :=
  _clean_form clean;; _post_clean.

(** [BaseModelForm.save(commit=False)] *)
Definition super_save : M Instance :=
  fun w =>
    if bool_decide (errors (self w) = ∅) then Return (instance (self w)) w
    else Raise (ValueError "The object could not be saved because the data didn't validate.") w.

(** ** The ORM, as far as the forms use it *)

(** [int(v)] *)
Definition builtin_int (v : value) : M Z :=
  match v with
  | VStr s => match py_int s with
              | Some z => ret z
              | None => raise (ValueError "invalid literal for int()")
              end
  | VInt z => ret z
  | _ => raise TypeError
  end.

(** The value an integer column ([pk], [object_id]) is compared with:
    [None] is [IS NULL], anything else goes through [int]. *)
Definition int_prep (v : value) : M (option Z) :=
  match v with
  | VNone => ret None
  | _ => z ← builtin_int v; ret (Some z)
  end.

(** The value a foreign key column is compared with: a model instance
    stands for its primary key. *)
Definition fk_prep (v : value) : M (option Z) :=
  match v with
  | VSite s => ret (Some (site_pk s))
  | VGrouper pk => ret (Some pk)
  | VUrl pk _ => ret (Some pk)
  | VObj o => ret (Some (obj_pk o))
  | _ => int_prep v
  end.

(** The integers that a key column of the database holds: 64 bits,
    signed.  A table has no row under a key beyond them, and a query for
    such a key does not run: binding the parameter raises
    [OverflowError]. *)
Definition in_db_range (z : Z) : bool := (- 2 ^ 63 <=? z)%Z && (z <? 2 ^ 63)%Z.

(** The exception of a lookup by key that finds no row. *)
Definition not_found (z : Z) : exn :=
  if in_db_range z then ObjectDoesNotExist else OverflowError.

(** [ContentType.objects.get_for_id(id)] *)
Definition get_for_id (id : value) : M ContentType :=
  pk ← int_prep id;
  w ← get_world;
  match pk with
  | Some z => match content_types (db w) !! z with
              | Some model => ret (mkContentType z model)
              | None => raise (not_found z)
              end
  | None => raise ObjectDoesNotExist
  end.

(** [qs.filter(site=site)] *)
Definition filter_site (site : value) (qs : gmap Z (option Z)) : M (gmap Z (option Z)) :=
  s ← fk_prep site;
  ret (filter (fun row => row.2 = s) qs).

(** [qs.on_site(site)], [scope] being the manager's method. *)
Definition apply_on_site (scope : value -> Z -> bool) (site : value)
    (qs : gmap Z (option Z)) : gmap Z (option Z) :=
  filter (fun row => scope site row.1 = true) qs.

(** [qs.get(pk=v)] on the table of the model of content type [ct] *)
Definition qs_get (ct : Z) (qs : gmap Z (option Z)) (v : value) : M Obj :=
  pk ← int_prep v;
  match pk with
  | Some z => match qs !! z with
              | Some site => ret (mkObj ct z site)
              | None => raise (not_found z)
              end
  | None => raise ObjectDoesNotExist
  end.

(** Whether a row passes [filter(content_type=ct, object_id=o)] and
    [exclude(url_grouper=g)]; on the nullable [url_grouper], [exclude]
    keeps the rows whose grouper is null when [g] is not. *)
Definition kept (ct : Z) (o g : option Z) (r : UrlRow) : bool :=
  bool_decide (row_content_type r = Some ct)
  && bool_decide (row_object_id r = o)
  && negb (bool_decide (row_url_grouper r = g)).

(** [Url._base_manager.filter(content_type=ct, object_id=oid)
       .exclude(url_grouper=grouper).exists()] *)
Definition Url_filter_exclude_exists (ct : Z) (oid grouper : value) : M bool :=
  o ← int_prep oid;
  g ← fk_prep grouper;
  w ← get_world;
  ret (existsb (kept ct o g) (url_table (db w))).

(** [UrlGrouper.objects.get(pk=z)] *)
Definition UrlGrouper_get (z : Z) : M value :=
  w ← get_world;
  if bool_decide (z ∈ url_groupers (db w)) then ret (VGrouper z)
  else raise ObjectDoesNotExist.

(** The key an auto-incremented table gives its next row. *)
Definition next_pk (pks : list Z) : Z := 1 + foldr Z.max 0 pks.

(** [UrlGrouper.objects.create()] *)
Definition UrlGrouper_create : M value :=
  w ← get_world;
  let d := db w in
  let pk := next_pk (url_groupers d) in
  modify (set_db (mkDB (content_types d) (url_table d) (override_table d)
                    (url_groupers d ++ [pk])%list));;
  ret (VGrouper pk).

(** [instance.content_object = v], the setter of the generic foreign key:
    it writes [content_type] and [object_id] and caches [v]. *)
Definition set_content_object (i : Instance) (v : value) : M Instance :=
  match v with
  | VNone =>
      ret (setattr (setattr (setattr i "content_type" VNone) "object_id" VNone)
             "content_object" VNone)
  | VObj o =>
      ret (setattr (setattr (setattr i "content_type" (VInt (obj_ct o)))
                      "object_id" (VInt (obj_pk o)))
             "content_object" v)
  | _ => raise AttributeError
  end.

Definition column (i : Instance) (name : string) : option Z :=
  match getattr i name with
  | VInt z => Some z
  | VGrouper z => Some z
  | _ => None
  end.

Definition upsert (r : UrlRow) (table : list UrlRow) : list UrlRow :=
  (filter (fun x => row_pk x ≠ row_pk r) table ++ [r])%list.

(** [url.save()]: a new instance gets the next primary key; the row is
    written to the table of its model. *)
Definition Model_save (url : Instance) : M Instance :=
  w ← get_world;
  let d := db w in
  let table := if bool_decide (klass url = UrlModel) then url_table d else override_table d in
  let pk := match getattr url "id" with
            | VInt z => z
            | _ => next_pk (row_pk <$> table)
            end in
  let r := mkUrlRow pk (column url "content_type") (column url "object_id")
             (column url "url_grouper") in
  modify (set_db (if bool_decide (klass url = UrlModel)
                  then mkDB (content_types d) (upsert r table) (override_table d) (url_groupers d)
                  else mkDB (content_types d) (url_table d) (upsert r table) (url_groupers d)));;
  ret (setattr url "id" (VInt pk)).

(** * forms.py *)

(** Modelled from the spec: [BASIC_TYPE_CHOICES] is defined in [models.py],
    which is not among the sources; the five basic kinds, under the names
    that [UrlForm.Meta.fields] gives their fields. *)
Definition BASIC_TYPE_CHOICES : list (string * string) :=
  [("manual_url", "Manual URL"); ("relative_path", "Relative path");
   ("anchor", "Anchor"); ("mailto", "Mailto"); ("phone", "Phone")].

(** [dict(BASIC_TYPE_CHOICES).keys()] *)
Definition basic_type_names : list string := BASIC_TYPE_CHOICES.*1.

Module UrlForm.

(** [Meta.fields] *)
Definition Meta_fields : list string :=
  ["internal_name"; "url_type"; "site"; "content_object"; "manual_url";
   "relative_path"; "anchor"; "mailto"; "phone"].

(** [url_type in dict(BASIC_TYPE_CHOICES).keys()] *)
Definition is_basic (url_type : value) : bool :=
  match url_type with
  | VStr t => bool_decide (t ∈ basic_type_names)
  | _ => false
  end.

(** The name a [str] value is used under as a key or field name. *)
Definition name_of (v : value) : string :=
  match v with VStr s => s | _ => "" end.

(** The loop of lines 134-136. *)
Fixpoint blank_others (names : list string) (url_type : value) : M unit :=
  match names with
  | [] => ret tt
  | type_name :: rest =>
      (if bool_decide (VStr type_name ≠ url_type)
       then cleaned_setitem type_name (VStr "")
       else ret tt);;
      blank_others rest url_type
  end.

Definition does_not_exist_message (url_type : string) (site : value) : string :=
  "Object does not exist in a given content type id: " +:+ url_type
    +:+ " and site: " +:+ py_str site.

(** Lines 145-152: the content type, its model class and the scoped
    lookup of the submitted primary key. *)
Definition lookup (url_type content_object site : value) : M (ContentType * Obj) :=
  content_type ← get_for_id url_type;
  let model := model_class_of content_type in
  let content_object_qs := objects model in
  content_object_qs ←
    match on_site model with
    | Some scope => ret (apply_on_site scope site content_object_qs)
    | None =>
        if has_site model then filter_site site content_object_qs
        else ret content_object_qs
    end;
  content_object ← qs_get (ct_id content_type) content_object_qs content_object;
  ret (content_type, content_object).

(** Lines 154-164.  [data] is [self.cleaned_data] itself, the dict that
    [super().clean()] returns, so [data["content_object"]] is still the
    submitted string here. *)
Definition check_unique (content_type : ContentType) : M unit :=
  url ← cleaned_get "url";
  if negb (truthy url) then
    url_grouper ← cleaned_get "url_grouper";
    object_id ← cleaned_getitem "content_object";
    taken ← Url_filter_exclude_exists (ct_id content_type) object_id url_grouper;
    if taken : bool
    then add_error "content_object" "Url with this object already exists"
    else ret tt
  else ret tt.

(** Lines 145-166, the body of [try]. *)
Definition resolve (url_type content_object site : value) : M unit :=
  found ← lookup url_type content_object site;
  check_unique found.1;;
  cleaned_setitem "content_object" (VObj found.2).

(** Lines 167-178, the [except ObjectDoesNotExist] clause. *)
Definition except_clause (site : value) (e : exn) : option (M unit) :=
  match e with
  | ObjectDoesNotExist =>
      Some (submitted ← data_getitem "url_type";
            add_error "content_object" (does_not_exist_message submitted site))
  | _ => None
  end.

Definition clean : M unit :=
  url_type ← cleaned_get "url_type";
  content_object ← cleaned_get "content_object";
  let is_basic_type := is_basic url_type in
  blank_others basic_type_names url_type;;
  if is_basic_type then
    w ← get_world;
    if bool_decide (errors (self w) !! name_of url_type = None) then
      v ← cleaned_getitem (name_of url_type);
      if negb (truthy v) then add_error (name_of url_type) "Field is required"
      else ret tt
    else ret tt
  else if truthy content_object then
    site ← cleaned_get "site";
    try_except (resolve url_type content_object site) (except_clause site)
  else add_error "content_object" "Field is required".

(** [url] is the instance the form holds or any other one. *)
Definition create_grouper (url : Instance) : M Instance :=
  if bool_decide (klass url = UrlModel) && negb (truthy (getattr url "url_grouper"))
  then g ← UrlGrouper_create; ret (setattr url "url_grouper" g)
  else ret url.

(** [super().save(commit=False)] returns [self.instance] itself, so
    [url] and [self.instance] are one object: the assignment to
    [self.instance.content_object] shows in [url], and what
    [create_grouper] and [url.save()] write shows in [self.instance]. *)
Definition save (commit : bool) : M Instance :=
  url_type ← cleaned_get "url_type";
  url ← super_save;
  let is_basic_type := is_basic url_type in
  url ← (if is_basic_type then set_content_object url VNone
         else v ← cleaned_get "content_object"; set_content_object url v);
  modify (set_instance url);;
  url ← create_grouper url;
  modify (set_instance url);;
  if commit then
    url ← Model_save url;
    modify (set_instance url);;
    ret url
  else ret url.

End UrlForm.

Module UrlOverrideForm.

Definition Meta_fields : list string := "url" :: UrlForm.Meta_fields.

(** [url.site] *)
Definition site_of (url : value) : M value :=
  match url with
  | VUrl _ s => ret (VSite s)
  | _ => raise AttributeError
  end.

(** [a == b] *)
Definition py_eq (a b : value) : bool :=
  match a, b with
  | VSite x, VSite y => site_eq x y
  | _, _ => bool_decide (a = b)
  end.

Definition site_message : string :=
  "Overridden site must be different from the original.".

Definition clean : M unit :=
  UrlForm.clean;;
  url ← cleaned_get "url";
  site ← cleaned_get "site";
  if truthy url then
    original ← site_of url;
    if py_eq original site
    then raise (ValidationError "site" site_message)
    else ret tt
  else ret tt.

End UrlOverrideForm.

Module HtmlLinkForm.

Definition Meta_fields : list string :=
  ["site"; "url_grouper"; "label"; "template"; "target"; "attributes"].

Definition clean : M unit :=
  try_except
    (v ← cleaned_getitem "url_grouper";
     url_grouper_id ← builtin_int v;
     grouper ← UrlGrouper_get url_grouper_id;
     cleaned_setitem "url_grouper" grouper)
    (fun e => match e with
              | ValueError _ => Some (add_error "url" "Invalid value")
              | ObjectDoesNotExist => Some (add_error "url" "Url does not exist")
              | _ => None
              end).

End HtmlLinkForm.

(** * Vocabulary of the statements *)

(** The form is a [UrlForm] or a subclass: it has the fields of [Meta]. *)
Definition is_UrlForm (w : World) : Prop := UrlForm.Meta_fields ⊆ fields (self w).

(** [cleaned_data.get("url_type")] when [clean] is entered. *)
Definition submitted_type (w : World) : value :=
  default VNone (cleaned_data (self w) !! "url_type").

(** What the loop of [UrlForm.blank_others] leaves in [cleaned_data]. *)
Definition blank (names : list string) (url_type : value) (d : gmap string value) :
    gmap string value :=
  foldl (fun d n => if bool_decide (VStr n ≠ url_type) then <[n := VStr ""]> d else d)
    d names.
Arguments blank : simpl never.

Definition blanked (w : World) : World :=
  set_cleaned_data (blank basic_type_names (submitted_type w) (cleaned_data (self w))) w.

(** The form after [add_error(field, msg)] on one of its fields. *)
Definition with_error (field msg : string) (w : World) : World :=
  set_cleaned_data (delete field (cleaned_data (self w)))
    (set_errors (<[field := (default [] (errors (self w) !! field) ++ [msg])%list]>
                   (errors (self w))) w).

(** The key a foreign key to [site] holds. *)
Definition site_key (site : value) : option Z :=
  match site with
  | VSite s => Some (site_pk s)
  | _ => None
  end.

(** The scope of the lookup in the words of the specification: through
    [on_site] when the manager has it, else through the [site] field when
    the model has one, else every row. *)
Definition in_scope (model : Model) (site : value) (pk : Z) (row_site : option Z) : Prop :=
  match on_site model with
  | Some scope => scope site pk = true
  | None => if has_site model then row_site = site_key site else True
  end.

(** The value of an optional [UrlGrouper] in cleaned data. *)
Definition grouper_value (g : option Z) : value :=
  match g with
  | Some pk => VGrouper pk
  | None => VNone
  end.

(** A saved [Url] that stands in the way of the submission: it points at
    object [z] of content type [k] and its grouper is not [g]. *)
Definition conflicts (k z : Z) (g : option Z) (r : UrlRow) : Prop :=
  row_content_type r = Some k /\ row_object_id r = Some z /\ row_url_grouper r ≠ g.

(** The form after lines 155-164 when the lookup found object [z] of
    content type [k]. *)
Definition after_check (w : World) (k z : Z) (g : option Z) : World :=
  if truthy (default VNone (cleaned_data (self w) !! "url")) then blanked w
  else if existsb (kept k (Some z) g) (url_table (db w))
       then with_error "content_object" "Url with this object already exists" (blanked w)
       else blanked w.

(** A computation that leaves the world as it is and whose result depends
    on the database only. *)
Definition reads_db {A} (c : M A) : Prop :=
  forall d, exists r : exn + A,
    forall w, db w = d ->
      c w = match r with inl e => Raise e w | inr a => Return a w end.

(** [w'] is [w] except for [errors] and for the keys of [cleaned_data]
    that [K] holds of. *)
Definition touches (K : string -> Prop) (w w' : World) : Prop :=
  db w' = db w /\ class_name (self w') = class_name (self w)
  /\ fields (self w') = fields (self w) /\ data (self w') = data (self w)
  /\ instance (self w') = instance (self w)
  /\ forall k, ~ K k -> cleaned_data (self w') !! k = cleaned_data (self w) !! k.

(** A computation that, however it ends, changes no more than that. *)
Definition preserves (K : string -> Prop) {A} (c : M A) : Prop :=
  forall w, match c w with
            | Return _ w' => touches K w w'
            | Raise _ w' => touches K w w'
            end.

(** The keys of [cleaned_data] that [UrlForm.clean] writes. *)
Definition cleaned_by_UrlForm (k : string) : Prop :=
  k ∈ basic_type_names \/ k = "content_object".

(** The instance after [instance.content_object = v], for [v] a model
    instance or [None]. *)
Definition linked (i : Instance) (v : value) : Instance :=
  setattr (setattr (setattr i "content_type"
                      (match v with VObj o => VInt (obj_ct o) | _ => VNone end))
             "object_id" (match v with VObj o => VInt (obj_pk o) | _ => VNone end))
    "content_object" v.

(** The instance and the database after [create_grouper]. *)
Definition grouped (url : Instance) (d : DB) : Instance * DB :=
  if bool_decide (klass url = UrlModel) && negb (truthy (getattr url "url_grouper"))
  then (setattr url "url_grouper" (VGrouper (next_pk (url_groupers d))),
        mkDB (content_types d) (url_table d) (override_table d)
          (url_groupers d ++ [next_pk (url_groupers d)])%list)
  else (url, d).

(** The instance and the database after [url.save()]. *)
Definition stored (url : Instance) (d : DB) : Instance * DB :=
  let table := if bool_decide (klass url = UrlModel) then url_table d else override_table d in
  let pk := match getattr url "id" with
            | VInt z => z
            | _ => next_pk (row_pk <$> table)
            end in
  let r := mkUrlRow pk (column url "content_type") (column url "object_id")
             (column url "url_grouper") in
  (setattr url "id" (VInt pk),
   if bool_decide (klass url = UrlModel)
   then mkDB (content_types d) (upsert r table) (override_table d) (url_groupers d)
   else mkDB (content_types d) (url_table d) (upsert r table) (url_groupers d)).

(** The instance that [construct_instance] leaves. *)
Definition constructed (f : Form) : Instance :=
  foldl (fun i name =>
           match cleaned_data f !! name with
           | Some v => if bool_decide (name ∈ fields f) then setattr i name v else i
           | None => i
           end) (instance f) Url_model_fields.

(** The value that [save] assigns to [instance.content_object]. *)
Definition target (w : World) : value :=
  if UrlForm.is_basic (submitted_type w) then VNone
  else default VNone (cleaned_data (self w) !! "content_object").

(** A submission from [clean] to [save], as a view runs it: [save] raises
    on a form that has errors. *)
Definition clean_and_save (commit : bool) : M Instance :=
  full_clean UrlForm.clean;; UrlForm.save commit.

(** What a computation returns, if it returns. *)
Definition returned {A} (c : M A) (w : World) : option A :=
  match c w with
  | Return a _ => Some a
  | Raise _ _ => None
  end.

(** The world a computation leaves. *)
Definition world_after {A} (c : M A) (w : World) : World :=
  match c w with
  | Return _ w' => w'
  | Raise _ w' => w'
  end.

(** A submission of the generic kind: the cleaned [url_type] is the decimal
    id [k] of a content type whose model class is [model], the cleaned
    [content_object] is the decimal key [z], [site] is the cleaned site
    and [g] the cleaned grouper (each [None] when the form has no such
    field or the field did not validate). *)
Record generic_submission (w : World) (t : string) (k : Z) (model : Model)
    (c : string) (z : Z) (site : value) (g : option Z) : Prop := {
  gs_form : is_UrlForm w;
  gs_type : cleaned_data (self w) !! "url_type" = Some (VStr t);
  gs_type_id : py_int t = Some k;
  gs_model : content_types (db w) !! k = Some model;
  gs_object : cleaned_data (self w) !! "content_object" = Some (VStr c);
  gs_object_pk : py_int c = Some z;
  gs_site : default VNone (cleaned_data (self w) !! "site") = site;
  gs_site_type : site = VNone \/ exists s, site = VSite s;
  gs_grouper : default VNone (cleaned_data (self w) !! "url_grouper") = grouper_value g;
}.

#[global] Instance in_scope_dec model site pk row_site :
  Decision (in_scope model site pk row_site).
Proof.
  unfold in_scope. destruct (on_site model); [|destruct (has_site model)]; apply _.
Defined.

(** ** Sample data *)

Module Sample.

Definition site1 : Site := mkSite 1 "example.com".
Definition site2 : Site := mkSite 2 "example.org".

(** A model with a [site] field and no [on_site]: two rows. *)
Definition article : Model := mkModel {[ 5 := Some 1; 6 := Some 2 ]} None true.

(** A model whose manager has [on_site]: only row 3 is on site 1. *)
Definition page : Model :=
  mkModel {[ 3 := None; 4 := None ]}
    (Some (fun site pk => bool_decide (site = VSite site1) && (pk =? 3)%Z)) true.

(** A model with neither. *)
Definition alias : Model := mkModel {[ 9 := None ]} None false.

Definition database : DB :=
  mkDB {[ 7 := article; 8 := page; 12 := alias ]}
    [mkUrlRow 1 (Some 7) (Some 5) (Some 10)] [] [10].

Definition new_url : Instance := mkInstance UrlModel ∅.

Definition url_form (cleaned : gmap string value) : World :=
  mkWorld (mkForm "UrlForm" UrlForm.Meta_fields
             (omap (fun v => match v with VStr s => Some s | _ => None end) cleaned)
             cleaned ∅ new_url) database.

Definition override_form (cleaned : gmap string value) : World :=
  mkWorld (mkForm "UrlOverrideForm" UrlOverrideForm.Meta_fields ∅ cleaned ∅
             (mkInstance UrlOverrideModel ∅)) database.

Definition link_form (cleaned : gmap string value)
    (errs : gmap string (list string)) : World :=
  mkWorld (mkForm "HtmlLinkForm" HtmlLinkForm.Meta_fields ∅ cleaned errs
             (mkInstance LinkPluginModel ∅)) database.

End Sample.

(** * forms.py: field hooks, constructors and widgets *)

(** ** [UrlForm.clean_anchor] *)

(** The double quote, which the message of [clean_anchor] holds. *)
Definition quote : string := String (ascii_of_nat 34) EmptyString.

(** ['Do not include a preceding "#" symbol.'] *)
Definition anchor_message : string :=
  "Do not include a preceding " +:+ quote +:+ "#" +:+ quote +:+ " symbol.".

(** [anchor and anchor[0] == "#"], as the condition of an [if]: a false
    value is not indexed, a true value that is no string cannot be. *)
Definition anchor_has_hash (anchor : value) : M bool :=
  if truthy anchor then
    match anchor with
    | VStr (String c _) => ret (Ascii.eqb c "#")
    | _ => raise TypeError
    end
  else ret false.

(** Lines 183-188. *)
Definition clean_anchor : M value :=
  anchor ← cleaned_get "anchor";
  hash ← anchor_has_hash anchor;
  (if hash : bool then add_error "anchor" anchor_message else ret tt);;
  ret anchor.

(** What [BaseForm._clean_fields] does with a field that has a
    [clean_<name>] method, once [field.clean] has put the value in
    [cleaned_data]: the value that the method returns is stored under the
    name.  A [ValidationError] goes to [self.add_error(name, e)], which
    refuses one of the dict shape with [TypeError]. *)
Definition run_clean_hook (name : string) (hook : M value) : M unit :=
  try_except (v ← hook; cleaned_setitem name v)
    (fun e => match e with
              | ValidationError _ _ => Some (raise TypeError)
              | _ => None
              end).

(** A submission of a [UrlForm] from the hook of [anchor] on: the fields
    that [_clean_fields] cleans after [anchor] write their own keys only. *)
Definition submit_anchor (commit : bool) : M Instance :=
  run_clean_hook "anchor" clean_anchor;; clean_and_save commit.

(** ** The fields that [__init__] configures *)

(** A bound field of a form: whether it is required, the class of its
    widget, its initial value and, for a choice field, its choices. *)
Record Field := mkField {
  required : bool;
  widget : string;
  initial : value;
  choices : list (value * string);
}.

#[global] Instance Field_eq_dec : EqDecision Field.
Proof. solve_decision. Defined.

Definition set_required (b : bool) (f : Field) : Field :=
  mkField b (widget f) (initial f) (choices f).
Definition set_widget (name : string) (f : Field) : Field :=
  mkField (required f) name (initial f) (choices f).
Definition set_initial (v : value) (f : Field) : Field :=
  mkField (required f) (widget f) v (choices f).
Definition set_choices (c : list (value * string)) (f : Field) : Field :=
  mkField (required f) (widget f) (initial f) c.

(** [self.fields[name].<attribute> = ...]: [KeyError] without the field. *)
Definition update_field (name : string) (change : Field -> Field)
    (fields : gmap string Field) : exn + gmap string Field :=
  match fields !! name with
  | Some f => inr (<[name := change f]> fields)
  | None => inl (KeyError name)
  end.

(** ** [UrlForm.__init__] *)

(** Lines 122-126: the first basic kind that the instance holds a value
    of becomes the initial [url_type]; [break] ends the loop there. *)
Fixpoint initial_from_basic (names : list string) (instance : Instance)
    (fields : gmap string Field) : exn + gmap string Field :=
  match names with
  | [] => inr fields
  | type_name :: rest =>
      if truthy (getattr instance type_name)
      then update_field "url_type" (set_initial (VStr type_name)) fields
      else initial_from_basic rest instance fields
  end.

(** Lines 97-126, after [super().__init__] has bound [self.fields] and
    [self.instance].  [capitalize] is [str.capitalize]; [supported] holds,
    for each model of [supported_models()], the id of its content type and
    its [verbose_name]; [instance.content_type_id] and
    [instance.object_id] are the columns that the instance holds under
    [content_type] and [object_id]. *)
Definition UrlForm_init (capitalize : string -> string) (supported : list (Z * string))
    (instance : Instance) (fields : gmap string Field) : exn + gmap string Field :=
  let fields :=
    match fields !! "url_grouper" with
    | Some f => <["url_grouper" := set_widget "HiddenInput" (set_required false f)]> fields
    | None => fields
    end in
  let choices :=
    (((fun model => (VInt model.1, capitalize model.2)) <$> supported)
     ++ ((fun choice => (VStr choice.1, choice.2)) <$> BASIC_TYPE_CHOICES))%list in
  match update_field "url_type" (set_choices choices) fields with
  | inl e => inl e
  | inr fields =>
      if truthy (getattr instance "content_type") then
        match update_field "url_type" (set_initial (getattr instance "content_type")) fields with
        | inl e => inl e
        | inr fields =>
            update_field "content_object" (set_initial (getattr instance "object_id")) fields
        end
      else initial_from_basic basic_type_names instance fields
  end.

(** ** [HtmlLinkForm.__init__] *)

(** Lines 257-262: [instance.url_grouper_id] is the key of the grouper
    that the instance holds under [url_grouper]. *)
Definition HtmlLinkForm_init (instance : Instance) (fields : gmap string Field) :
    exn + gmap string Field :=
  match column instance "url_grouper" with
  | Some pk =>
      if truthy (VInt pk) then update_field "url_grouper" (set_initial (VInt pk)) fields
      else inr fields
  | None => inr fields
  end.

(** ** The select2 widgets *)

(** Django's [Widget.build_attrs(base_attrs, extra_attrs=None)]:
    [{**base_attrs, **(extra_attrs or {})}]. *)
Definition Widget_build_attrs (base_attrs : gmap string value)
    (extra_attrs : option (gmap string value)) : gmap string value :=
  default ∅ extra_attrs ∪ base_attrs.

(** [d.setdefault(key, v)], for the dict it leaves. *)
Definition setdefault (key : string) (v : value) (d : gmap string value) :
    gmap string value :=
  match d !! key with
  | Some _ => d
  | None => <[key := v]> d
  end.

(** [admin_reverse] of the CMS resolves the name of a route to its path;
    [None] stands for [NoReverseMatch].  The two route names are constants
    of [constants.py]; the widgets take them as they are. *)
Module ContentTypeObjectSelectWidget.

Definition get_url (admin_reverse : string -> option string)
    (SELECT2_CONTENT_TYPE_OBJECT_URL_NAME : string) : option string :=
  admin_reverse SELECT2_CONTENT_TYPE_OBJECT_URL_NAME.

(** The argument of [setdefault] is evaluated before the call. *)
Definition build_attrs (admin_reverse : string -> option string)
    (SELECT2_CONTENT_TYPE_OBJECT_URL_NAME : string)
    (base_attrs : gmap string value) (extra_attrs : option (gmap string value)) :
    option (gmap string value) :=
  let attrs := Widget_build_attrs base_attrs extra_attrs in
  url ← get_url admin_reverse SELECT2_CONTENT_TYPE_OBJECT_URL_NAME;
  Some (setdefault "data-select2-url" (VStr url) attrs).

End ContentTypeObjectSelectWidget.

Module HtmlLinkUrlSelectWidget.

Definition get_url (admin_reverse : string -> option string) (SELECT2_URLS : string) :
    option string :=
  admin_reverse SELECT2_URLS.

Definition build_attrs (admin_reverse : string -> option string) (SELECT2_URLS : string)
    (base_attrs : gmap string value) (extra_attrs : option (gmap string value)) :
    option (gmap string value) :=
  let attrs := Widget_build_attrs base_attrs extra_attrs in
  url ← get_url admin_reverse SELECT2_URLS;
  Some (setdefault "data-select2-url" (VStr url) attrs).

End HtmlLinkUrlSelectWidget.

(** ** Vocabulary of the further statements *)

(** [w'] holds every error of [w], with the messages of [w] first. *)
Definition errors_kept (w w' : World) : Prop :=
  forall k l, errors (self w) !! k = Some l ->
              exists l', errors (self w') !! k = Some (l ++ l')%list.

(** A computation that, however it ends, drops and edits no error. *)
Definition appends_errors {A} (c : M A) : Prop :=
  forall w, match c w with
            | Return _ w' => errors_kept w w'
            | Raise _ w' => errors_kept w w'
            end.

(** The row that [url.save()] writes for an instance under key [pk]. *)
Definition row_of (pk : Z) (url : Instance) : UrlRow :=
  mkUrlRow pk (column url "content_type") (column url "object_id")
    (column url "url_grouper").

(** Whether a string holds ASCII characters only, the strings on which
    [py_int] is [int]. *)
Definition is_ascii (s : string) : bool :=
  forallb (fun c => (nat_of_ascii c <? 128)%nat) (list_ascii_of_string s).

(** Whether a string begins with ["#"]. *)
Definition starts_with_hash (s : string) : bool :=
  match s with
  | String c _ => Ascii.eqb c "#"
  | EmptyString => false
  end.

(** The key under which [url.save()] writes an instance: its own, or the
    next one of the table. *)
Definition saved_pk (url : Instance) (table : list UrlRow) : Z :=
  match getattr url "id" with
  | VInt z => z
  | _ => next_pk (row_pk <$> table)
  end.

(** More sample data: the fields of a [UrlForm] as the class declares
    them, the fields of an [HtmlLinkForm], and a route table. *)
Module SampleFields.

Definition plain : Field := mkField true "TextInput" VNone [].

Definition url_fields : gmap string Field :=
  {[ "internal_name" := plain;
     "url_type" := mkField true "UrlTypeSelectWidget" (VStr "relative_path") [];
     "site" := mkField true "SiteSelectWidget" VNone [];
     "content_object" := mkField false "ContentTypeObjectSelectWidget" VNone [];
     "manual_url" := plain; "relative_path" := plain; "anchor" := plain;
     "mailto" := plain; "phone" := plain ]}.

Definition link_fields : gmap string Field :=
  {[ "site" := mkField false "HtmlLinkSiteSelectWidget" VNone [];
     "url_grouper" := mkField true "HtmlLinkUrlSelectWidget" VNone [];
     "label" := plain; "template" := plain; "target" := plain;
     "attributes" := plain ]}.

Definition supported : list (Z * string) := [(7, "article"); (8, "page")].

(** [str.capitalize] on the two names of [supported]. *)
Definition capitalize (s : string) : string :=
  if String.eqb s "article" then "Article"
  else if String.eqb s "page" then "Page" else s.

Definition routes (name : string) : option string :=
  if String.eqb name "select2_urls" then Some "/admin/select2/urls/"
  else if String.eqb name "select2_objects" then Some "/admin/select2/objects/"
  else None.

End SampleFields.

(** * Properties *)

Ltac munfold :=
  unfold mbind, M_bind, bind, mret, M_ret, ret, raise, modify, get_world,
    cleaned_get, cleaned_getitem, cleaned_setitem, data_getitem, try_except in *.

Ltac mstep := unfold mbind, M_bind, bind, mret, M_ret, ret; cbv beta iota.

Ltac by_decide :=
  match goal with
  | |- ?P => apply (bool_decide_unpack P); vm_compute; exact I
  end.

(** ** The monad and the form machinery *)

Lemma add_error_run field msg w :
  field ∈ fields (self w) ->
  add_error field msg w = Return tt (with_error field msg w).
Proof.
  intros Hin. unfold add_error, add_error_list, with_error.
  destruct (errors (self w) !! field) as [old|] eqn:E; cbn; [done|].
  rewrite (bool_decide_false (field ∉ _)) by (intros H; by apply H).
  by rewrite andb_false_r.
Qed.

Lemma with_error_errors field msg w :
  errors (self (with_error field msg w)) !! field
  = Some (default [] (errors (self w) !! field) ++ [msg])%list.
Proof. unfold with_error. cbn. by rewrite lookup_insert_eq. Qed.

Lemma with_error_nonempty field msg w : errors (self (with_error field msg w)) ≠ ∅.
Proof. unfold with_error. cbn. apply insert_non_empty. Qed.

Lemma basic_in_Meta t : t ∈ basic_type_names -> t ∈ UrlForm.Meta_fields.
Proof.
  unfold basic_type_names. cbn. rewrite !elem_of_cons, elem_of_nil.
  intros [->|[->|[->|[->|[->|[]]]]]]; by_decide.
Qed.

Lemma basic_not_int t : t ∈ basic_type_names -> py_int t = None.
Proof.
  unfold basic_type_names. cbn. rewrite !elem_of_cons, elem_of_nil.
  intros [->|[->|[->|[->|[->|[]]]]]]; reflexivity.
Qed.

Lemma int_not_basic t k : py_int t = Some k -> UrlForm.is_basic (VStr t) = false.
Proof.
  intros H. cbn. apply bool_decide_false. intros Hb.
  apply basic_not_int in Hb. congruence.
Qed.

Lemma int_truthy c z : py_int c = Some z -> truthy (VStr c) = true.
Proof.
  intros H. cbn. destruct (String.eqb_spec c "") as [->|]; [|done].
  vm_compute in H. discriminate.
Qed.

(** ** The loop that blanks the other basic fields *)

Lemma blank_others_run names url_type w :
  UrlForm.blank_others names url_type w
  = Return tt (set_cleaned_data (blank names url_type (cleaned_data (self w))) w).
Proof.
  revert w. induction names as [|n names IH]; intros w.
  - destruct w as [[] ?]. reflexivity.
  - cbn [UrlForm.blank_others]. munfold. unfold blank in *. case_bool_decide; cbn.
    + rewrite IH. destruct w as [[] ?]; cbn. by rewrite bool_decide_true.
    + rewrite IH. cbn. by rewrite bool_decide_false by tauto.
Qed.

Lemma lookup_blank names url_type d k :
  blank names url_type d !! k
  = if bool_decide (k ∈ names /\ VStr k ≠ url_type) then Some (VStr "") else d !! k.
Proof.
  unfold blank. revert d. induction names as [|n names IH]; intros d; cbn [foldl].
  - rewrite bool_decide_false; [done|]. intros [H _]. by apply elem_of_nil in H.
  - rewrite IH. destruct (decide (VStr n = url_type)) as [Hn|Hn].
    + rewrite (bool_decide_false (VStr n ≠ url_type)) by tauto.
      rewrite (bool_decide_ext (k ∈ names /\ VStr k ≠ url_type)
                 (k ∈ n :: names /\ VStr k ≠ url_type)); [done|].
      rewrite elem_of_cons. split; [tauto|]. intros [[->|H] Hk]; [done|tauto].
    + rewrite (bool_decide_true (VStr n ≠ url_type)) by done.
      destruct (decide (k = n)) as [->|Hk].
      * rewrite lookup_insert_eq. rewrite (bool_decide_true (n ∈ n :: names /\ _)).
        -- by case_bool_decide.
        -- split; [by left|done].
      * rewrite lookup_insert_ne by done.
        rewrite (bool_decide_ext (k ∈ names /\ VStr k ≠ url_type)
                   (k ∈ n :: names /\ VStr k ≠ url_type)); [done|].
        rewrite elem_of_cons. tauto.
Qed.

Lemma blanked_lookup w k :
  cleaned_data (self (blanked w)) !! k
  = if bool_decide (k ∈ basic_type_names /\ VStr k ≠ submitted_type w)
    then Some (VStr "") else cleaned_data (self w) !! k.
Proof. unfold blanked. cbn. apply lookup_blank. Qed.

Lemma blanked_lookup_other w k :
  k ∉ basic_type_names ->
  cleaned_data (self (blanked w)) !! k = cleaned_data (self w) !! k.
Proof. intros H. rewrite blanked_lookup, bool_decide_false; [done|]. tauto. Qed.

(** [clean], one branch at a time. *)
Lemma clean_unfold w :
  UrlForm.clean w =
    let url_type := submitted_type w in
    let content_object := default VNone (cleaned_data (self w) !! "content_object") in
    let site := default VNone (cleaned_data (self (blanked w)) !! "site") in
    if UrlForm.is_basic url_type then
      if bool_decide (errors (self (blanked w)) !! UrlForm.name_of url_type = None) then
        match cleaned_data (self (blanked w)) !! UrlForm.name_of url_type with
        | Some v => if negb (truthy v)
                    then add_error (UrlForm.name_of url_type) "Field is required" (blanked w)
                    else Return tt (blanked w)
        | None => Raise (KeyError (UrlForm.name_of url_type)) (blanked w)
        end
      else Return tt (blanked w)
    else if truthy content_object then
      try_except (UrlForm.resolve url_type content_object site) (UrlForm.except_clause site)
        (blanked w)
    else add_error "content_object" "Field is required" (blanked w).
Proof.
  unfold UrlForm.clean. munfold. rewrite blank_others_run.
  fold (submitted_type w). fold (blanked w).
  generalize (blanked w) as w1. intros w1. cbv zeta.
  destruct (UrlForm.is_basic (submitted_type w)).
  - case_bool_decide; [|done].
    destruct (cleaned_data (self w1) !! UrlForm.name_of (submitted_type w)); [|done].
    by destruct (negb (truthy v)).
  - destruct (truthy _); done.
Qed.

(** ** The lookup of the content object *)

Lemma scoped_lookup model site z s w :
  site = VNone \/ (exists x, site = VSite x) ->
  objects model !! z = Some s ->
  in_scope model site z s ->
  forall k t c,
    py_int t = Some k -> content_types (db w) !! k = Some model -> py_int c = Some z ->
    UrlForm.lookup (VStr t) (VStr c) site w
    = Return (mkContentType k model, mkObj k z s) w.
Proof.
  intros Hsite Hrow Hscope k t c Ht Hmodel Hc.
  unfold UrlForm.lookup, get_for_id, int_prep, builtin_int, qs_get, int_prep, builtin_int.
  munfold. rewrite Ht. cbn. rewrite Hmodel. cbn.
  unfold in_scope in Hscope.
  destruct (on_site model) as [scope|] eqn:Hon.
  - cbn. rewrite Hc. cbn. unfold apply_on_site.
    rewrite (proj2 (map_lookup_filter_Some _ _ z s)); [done|]. by split.
  - destruct (has_site model) eqn:Hhas.
    + unfold filter_site. munfold.
      assert (Hk : fk_prep site w = Return (site_key site) w).
      { destruct Hsite as [->|[x ->]]; reflexivity. }
      rewrite Hk. cbn. rewrite Hc. cbn.
      rewrite (proj2 (map_lookup_filter_Some _ _ z s)); [done|]. by split.
    + cbn. rewrite Hc. cbn. by rewrite Hrow.
Qed.

Lemma scoped_lookup_fails model site z w :
  site = VNone \/ (exists x, site = VSite x) ->
  (forall s, objects model !! z = Some s -> ~ in_scope model site z s) ->
  forall k t c,
    py_int t = Some k -> content_types (db w) !! k = Some model -> py_int c = Some z ->
    UrlForm.lookup (VStr t) (VStr c) site w = Raise (not_found z) w.
Proof.
  intros Hsite Hout k t c Ht Hmodel Hc.
  unfold UrlForm.lookup, get_for_id, int_prep, builtin_int, qs_get, int_prep, builtin_int.
  munfold. rewrite Ht. cbn. rewrite Hmodel. cbn.
  unfold in_scope in Hout.
  destruct (on_site model) as [scope|] eqn:Hon.
  - cbn. rewrite Hc. cbn. unfold apply_on_site.
    destruct (filter _ (objects model) !! z) as [s|] eqn:E; [|done].
    apply map_lookup_filter_Some in E as [E1 E2]. by destruct (Hout s E1).
  - destruct (has_site model) eqn:Hhas.
    + unfold filter_site. munfold.
      assert (Hk : fk_prep site w = Return (site_key site) w).
      { destruct Hsite as [->|[x ->]]; reflexivity. }
      rewrite Hk. cbn. rewrite Hc. cbn.
      destruct (filter _ (objects model) !! z) as [s|] eqn:E; [|done].
      apply map_lookup_filter_Some in E as [E1 E2]. by destruct (Hout s E1).
    + cbn. rewrite Hc. cbn.
      destruct (objects model !! z) as [s|] eqn:E; [|done]. by destruct (Hout s eq_refl).
Qed.

(** ** The uniqueness check *)

Lemma exists_conflict k z g rows :
  existsb (kept k (Some z) g) rows = true <-> exists r, r ∈ rows /\ conflicts k z g r.
Proof.
  rewrite existsb_exists. unfold conflicts, kept. split.
  - intros (r & Hin & Hr). exists r. rewrite list_elem_of_In. split; [done|].
    apply andb_prop in Hr as [Hr H3]. apply andb_prop in Hr as [H1 H2].
    apply bool_decide_eq_true_1 in H1. apply bool_decide_eq_true_1 in H2.
    apply negb_true_iff, bool_decide_eq_false_1 in H3. done.
  - intros (r & Hin & H1 & H2 & H3). exists r. rewrite <- list_elem_of_In. split; [done|].
    rewrite !bool_decide_true by done. by rewrite bool_decide_false by done.
Qed.

Lemma fk_prep_grouper g w : fk_prep (grouper_value g) w = Return g w.
Proof. by destruct g. Qed.

Lemma cleaned_get_run key w :
  cleaned_get key w = Return (default VNone (cleaned_data (self w) !! key)) w.
Proof. reflexivity. Qed.

Lemma cleaned_getitem_run key v w :
  cleaned_data (self w) !! key = Some v -> cleaned_getitem key w = Return v w.
Proof. intros H. unfold cleaned_getitem. by rewrite H. Qed.

Lemma int_prep_run s z w : py_int s = Some z -> int_prep (VStr s) w = Return (Some z) w.
Proof. intros H. unfold int_prep, builtin_int. munfold. by rewrite H. Qed.

Lemma check_unique_run ct c z g w :
  truthy (default VNone (cleaned_data (self w) !! "url")) = false ->
  default VNone (cleaned_data (self w) !! "url_grouper") = grouper_value g ->
  cleaned_data (self w) !! "content_object" = Some (VStr c) ->
  py_int c = Some z ->
  "content_object" ∈ fields (self w) ->
  UrlForm.check_unique ct w =
    Return tt
      (if existsb (kept (ct_id ct) (Some z) g) (url_table (db w))
       then with_error "content_object" "Url with this object already exists" w
       else w).
Proof.
  intros Hurl Hg Hc Hz Hfield.
  unfold UrlForm.check_unique, Url_filter_exclude_exists. mstep.
  rewrite cleaned_get_run, Hurl. cbv beta iota. cbn [negb].
  rewrite cleaned_get_run, Hg. cbv beta iota.
  rewrite (cleaned_getitem_run _ _ _ Hc). cbv beta iota.
  rewrite (int_prep_run _ _ _ Hz). cbv beta iota.
  rewrite fk_prep_grouper. cbv beta iota. unfold get_world. cbv beta iota.
  destruct (existsb _ _); [|done]. by apply add_error_run.
Qed.

Lemma check_unique_override ct w :
  truthy (default VNone (cleaned_data (self w) !! "url")) = true ->
  UrlForm.check_unique ct w = Return tt w.
Proof.
  intros Hurl. unfold UrlForm.check_unique. mstep. by rewrite cleaned_get_run, Hurl.
Qed.

Lemma blanked_fields w : fields (self (blanked w)) = fields (self w).
Proof. reflexivity. Qed.

Lemma blanked_errors w : errors (self (blanked w)) = errors (self w).
Proof. reflexivity. Qed.

Lemma not_basic_key k : bool_decide (k ∈ basic_type_names) = false -> k ∉ basic_type_names.
Proof. apply bool_decide_eq_false_1. Qed.

(** What [clean] does once the lookup has found the object. *)
Lemma clean_found w t k model c z site g s :
  generic_submission w t k model c z site g ->
  objects model !! z = Some s ->
  in_scope model site z s ->
  UrlForm.clean w =
    Return tt
      (set_cleaned_data
         (<["content_object" := VObj (mkObj k z s)]>
            (cleaned_data (self (after_check w k z g))))
         (after_check w k z g)).
Proof.
  intros [Hform Ht Hk Hmodel Hc Hz Hsite Hsite_type Hg] Hrow Hscope.
  rewrite clean_unfold. cbv zeta.
  unfold submitted_type. rewrite Ht, Hc. cbn [default from_option id].
  rewrite (int_not_basic _ _ Hk), (int_truthy _ _ Hz).
  rewrite (blanked_lookup_other w "site") by (by apply not_basic_key).
  rewrite Hsite. unfold UrlForm.resolve, try_except. mstep.
  rewrite (scoped_lookup model site z s (blanked w) Hsite_type Hrow Hscope k t c Hk Hmodel Hz).
  cbv beta iota. cbn [fst snd]. unfold after_check.
  destruct (truthy (default VNone (cleaned_data (self w) !! "url"))) eqn:Hurl.
  - rewrite check_unique_override; [done|].
    by rewrite (blanked_lookup_other w "url") by (by apply not_basic_key).
  - rewrite (check_unique_run _ c z g); cbn [ct_id].
    + done.
    + by rewrite (blanked_lookup_other w "url") by (by apply not_basic_key).
    + by rewrite (blanked_lookup_other w "url_grouper") by (by apply not_basic_key).
    + by rewrite (blanked_lookup_other w "content_object") by (by apply not_basic_key).
    + done.
    + rewrite blanked_fields. apply Hform. by_decide.
Qed.

(** What [clean] does when the scoped lookup finds nothing. *)
Lemma clean_not_found w t k model c z site g :
  generic_submission w t k model c z site g ->
  (forall s, objects model !! z = Some s -> ~ in_scope model site z s) ->
  UrlForm.clean w =
    if in_db_range z then
      match data (self w) !! "url_type" with
      | Some submitted =>
          Return tt (with_error "content_object"
                       (UrlForm.does_not_exist_message submitted site) (blanked w))
      | None => Raise (KeyError "url_type") (blanked w)
      end
    else Raise OverflowError (blanked w).
Proof.
  intros [Hform Ht Hk Hmodel Hc Hz Hsite Hsite_type Hg] Hout.
  rewrite clean_unfold. cbv zeta.
  unfold submitted_type. rewrite Ht, Hc. cbn [default from_option id].
  rewrite (int_not_basic _ _ Hk), (int_truthy _ _ Hz).
  rewrite (blanked_lookup_other w "site") by (by apply not_basic_key).
  rewrite Hsite. unfold UrlForm.resolve, try_except. mstep.
  rewrite (scoped_lookup_fails model site z (blanked w) Hsite_type Hout k t c Hk Hmodel Hz).
  cbv beta iota. unfold not_found. destruct (in_db_range z); [|done].
  unfold UrlForm.except_clause. mstep. unfold data_getitem.
  change (data (self (blanked w))) with (data (self w)).
  destruct (data (self w) !! "url_type") as [submitted|]; [|done].
  apply add_error_run. rewrite blanked_fields. apply Hform. by_decide.
Qed.

(** C4. For a submission that is not an override (no [url] in the cleaned
    data) and whose content object is found, a saved [Url] that points at
    the same content type and object under another grouper makes [clean]
    add "Url with this object already exists" to the errors of
    [content_object]; with a [url] in the cleaned data, [clean] adds no
    error, whatever the saved [Url]s are. *)
Theorem clean_enforces_unique_binding w t k model c z site g s :
  generic_submission w t k model c z site g ->
  objects model !! z = Some s ->
  in_scope model site z s ->
  (truthy (default VNone (cleaned_data (self w) !! "url")) = false ->
   (exists r, r ∈ url_table (db w) /\ conflicts k z g r) ->
   exists w', UrlForm.clean w = Return tt w' /\
     errors (self w') !! "content_object"
     = Some (default [] (errors (self w) !! "content_object")
             ++ ["Url with this object already exists"])%list)
  /\ (truthy (default VNone (cleaned_data (self w) !! "url")) = true ->
      exists w', UrlForm.clean w = Return tt w' /\ errors (self w') = errors (self w)).
Proof.
  intros Hsub Hrow Hscope.
  rewrite (clean_found w t k model c z site g s Hsub Hrow Hscope).
  unfold after_check. split.
  - intros Hurl Hex. apply exists_conflict in Hex. rewrite Hurl, Hex.
    eexists. split; [reflexivity|]. cbn [self errors set_cleaned_data].
    by rewrite with_error_errors.
  - intros Hurl. rewrite Hurl. by eexists.
Qed.

Lemma clean_enforces_unique_binding_witness :
  (exists w', UrlForm.clean
                (Sample.url_form {[ "url_type" := VStr "7"; "content_object" := VStr "5";
                                    "site" := VSite Sample.site1 ]}) = Return tt w'
     /\ errors (self w') !! "content_object" = Some ["Url with this object already exists"])
  /\ (exists w', UrlForm.clean
                   (Sample.override_form
                      {[ "url_type" := VStr "7"; "content_object" := VStr "5";
                         "site" := VSite Sample.site1;
                         "url" := VUrl 1 Sample.site2 ]}) = Return tt w'
        /\ errors (self w') = ∅).
Proof.
  split.
  - refine (proj1 (clean_enforces_unique_binding _ "7" 7 Sample.article "5" 5
                     (VSite Sample.site1) None (Some 1) _ _ _) _ _).
    + split; try reflexivity; try by_decide. right. by eexists.
    + reflexivity.
    + reflexivity.
    + reflexivity.
    + exists (mkUrlRow 1 (Some 7) (Some 5) (Some 10)). split; [by_decide|].
      repeat split; discriminate.
  - refine (proj2 (clean_enforces_unique_binding _ "7" 7 Sample.article "5" 5
                     (VSite Sample.site1) None (Some 1) _ _ _) _).
    + split; try reflexivity; try by_decide. right. by eexists.
    + reflexivity.
    + reflexivity.
    + reflexivity.
Defined.

(** C7. For a generic submission, [clean] resolves [content_object] to
    row [z] exactly when the row exists and lies in the scope that this
    precedence gives: [on_site(site)] when the manager has [on_site];
    else the rows whose [site] is the selected one when the model has a
    [site] attribute; else every row. *)
Theorem lookup_scope_precedence w t k model c z site g s :
  generic_submission w t k model c z site g ->
  (exists w', UrlForm.clean w = Return tt w' /\
     cleaned_data (self w') !! "content_object" = Some (VObj (mkObj k z s)))
  <-> objects model !! z = Some s /\
      match on_site model with
      | Some scope => scope site z = true
      | None => if has_site model then s = site_key site else True
      end.
Proof.
  intros Hsub. fold (in_scope model site z s). split.
  - intros (w' & Hclean & Hco).
    destruct (objects model !! z) as [s'|] eqn:Hrow.
    + destruct (decide (in_scope model site z s')) as [Hin|Hout].
      * rewrite (clean_found w t k model c z site g s' Hsub Hrow Hin) in Hclean.
        injection Hclean as <-. cbn in Hco. rewrite lookup_insert_eq in Hco.
        injection Hco as <-. done.
      * rewrite (clean_not_found w t k model c z site g Hsub) in Hclean.
        -- destruct (in_db_range z); [|done].
           destruct (data (self w) !! "url_type"); [|done].
           injection Hclean as <-. cbn in Hco. by rewrite lookup_delete_eq in Hco.
        -- intros s0 Hs0. rewrite Hrow in Hs0. by injection Hs0 as <-.
    + rewrite (clean_not_found w t k model c z site g Hsub) in Hclean.
      * destruct (in_db_range z); [|done].
        destruct (data (self w) !! "url_type"); [|done].
        injection Hclean as <-. cbn in Hco. by rewrite lookup_delete_eq in Hco.
      * intros s0 Hs0. by rewrite Hrow in Hs0.
  - intros [Hrow Hin]. rewrite (clean_found w t k model c z site g s Hsub Hrow Hin).
    eexists. split; [reflexivity|]. cbn. by rewrite lookup_insert_eq.
Qed.

Lemma lookup_scope_precedence_witness :
  (* [page] has [on_site] and a [site] attribute: [on_site] decides *)
  ((exists w', UrlForm.clean
                 (Sample.url_form {[ "url_type" := VStr "8"; "content_object" := VStr "3";
                                     "site" := VSite Sample.site1 ]}) = Return tt w'
      /\ cleaned_data (self w') !! "content_object" = Some (VObj (mkObj 8 3 None)))
   <-> objects Sample.page !! 3 = Some None /\ true = true)
  (* [article] has a [site] attribute only *)
  /\ ((exists w', UrlForm.clean
                    (Sample.url_form {[ "url_type" := VStr "7"; "content_object" := VStr "6";
                                        "site" := VSite Sample.site2 ]}) = Return tt w'
         /\ cleaned_data (self w') !! "content_object" = Some (VObj (mkObj 7 6 (Some 2))))
      <-> objects Sample.article !! 6 = Some (Some 2) /\ Some 2 = Some 2)
  (* [alias] has neither *)
  /\ ((exists w', UrlForm.clean
                    (Sample.url_form {[ "url_type" := VStr "12"; "content_object" := VStr "9";
                                        "site" := VSite Sample.site2 ]}) = Return tt w'
         /\ cleaned_data (self w') !! "content_object" = Some (VObj (mkObj 12 9 None)))
      <-> objects Sample.alias !! 9 = Some None /\ True).
Proof.
  split; [|split].
  - apply (lookup_scope_precedence _ "8" 8 Sample.page "3" 3 (VSite Sample.site1) None None).
    split; try reflexivity; try by_decide. right. by eexists.
  - apply (lookup_scope_precedence _ "7" 7 Sample.article "6" 6 (VSite Sample.site2) None
             (Some 2)).
    split; try reflexivity; try by_decide. right. by eexists.
  - apply (lookup_scope_precedence _ "12" 12 Sample.alias "9" 9 (VSite Sample.site2) None None).
    split; try reflexivity; try by_decide. right. by eexists.
Defined.

(** C8. A generic submission whose scoped lookup finds no row does not
    always end with an error of [content_object].  With the key of the
    object among the integers of the database: when the raw data hold
    [url_type] under that very name, [clean] files under [content_object]
    the message that names that raw text and the selected site; when they
    do not, as on a form that is bound with a prefix,
    [self.data["url_type"]] raises [KeyError] in the handler, no error is
    filed and the exception leaves [full_clean].  With a key beyond those
    integers the lookup raises [OverflowError], which the handler does not
    catch: again no error is filed and the exception leaves
    [full_clean]. *)
Theorem clean_missing_object_outcomes w t k model c z site g :
  generic_submission w t k model c z site g ->
  (forall s, objects model !! z = Some s -> ~ in_scope model site z s) ->
  (in_db_range z = true ->
   (forall submitted, data (self w) !! "url_type" = Some submitted ->
      exists w', UrlForm.clean w = Return tt w' /\
        errors (self w') !! "content_object"
        = Some (default [] (errors (self w) !! "content_object")
                ++ ["Object does not exist in a given content type id: " +:+ submitted
                    +:+ " and site: " +:+ py_str site])%list)
   /\ (data (self w) !! "url_type" = None ->
       UrlForm.clean w = Raise (KeyError "url_type") (blanked w)
       /\ full_clean UrlForm.clean w = Raise (KeyError "url_type") (blanked w)
       /\ errors (self (blanked w)) = errors (self w)))
  /\ (in_db_range z = false ->
      UrlForm.clean w = Raise OverflowError (blanked w)
      /\ full_clean UrlForm.clean w = Raise OverflowError (blanked w)
      /\ errors (self (blanked w)) = errors (self w)).
Proof.
  intros Hsub Hout.
  pose proof (clean_not_found w t k model c z site g Hsub Hout) as Hclean.
  assert (Hfull : forall e, (forall field msg, e ≠ ValidationError field msg) ->
            UrlForm.clean w = Raise e (blanked w) ->
            full_clean UrlForm.clean w = Raise e (blanked w)).
  { intros e He Hraise. unfold full_clean, _clean_form, try_except. mstep.
    rewrite Hraise. destruct e; try done. by destruct (He field message). }
  split.
  - intros Hrange. rewrite Hrange in Hclean. split.
    + intros submitted Hdata. rewrite Hdata in Hclean. rewrite Hclean.
      eexists. split; [reflexivity|]. by rewrite with_error_errors.
    + intros Hdata. rewrite Hdata in Hclean. split; [done|]. split; [|done].
      by apply Hfull.
  - intros Hrange. rewrite Hrange in Hclean. split; [done|]. split; [|done].
    by apply Hfull.
Qed.

Lemma clean_missing_object_outcomes_witness :
  (* a form bound with the prefix [form] *)
  full_clean UrlForm.clean
    (mkWorld (mkForm "UrlForm" UrlForm.Meta_fields
                {[ "form-url_type" := "7"; "form-content_object" := "6" ]}
                {[ "url_type" := VStr "7"; "content_object" := VStr "6";
                   "site" := VSite Sample.site1 ]} ∅ Sample.new_url) Sample.database)
  = Raise (KeyError "url_type")
      (blanked
         (mkWorld (mkForm "UrlForm" UrlForm.Meta_fields
                     {[ "form-url_type" := "7"; "form-content_object" := "6" ]}
                     {[ "url_type" := VStr "7"; "content_object" := VStr "6";
                        "site" := VSite Sample.site1 ]} ∅ Sample.new_url)
            Sample.database))
  (* a key beyond 64 bits *)
  /\ full_clean UrlForm.clean
       (Sample.url_form {[ "url_type" := VStr "7";
                           "content_object" := VStr "99999999999999999999";
                           "site" := VSite Sample.site1 ]})
     = Raise OverflowError
         (blanked (Sample.url_form {[ "url_type" := VStr "7";
                                      "content_object" := VStr "99999999999999999999";
                                      "site" := VSite Sample.site1 ]})).
Proof.
  split.
  - set (w := mkWorld _ Sample.database).
    assert (H1 : generic_submission w "7" 7 Sample.article "6" 6
                   (VSite Sample.site1) None).
    { split; try reflexivity; try by_decide. right. by eexists. }
    assert (H2 : forall s, objects Sample.article !! 6 = Some s ->
                           ~ in_scope Sample.article (VSite Sample.site1) 6 s).
    { intros s Hs Hin. vm_compute in Hs. injection Hs as <-. vm_compute in Hin.
      discriminate. }
    exact (proj1 (proj2 (proj2 (proj1 (clean_missing_object_outcomes
                                         w "7" 7 Sample.article "6" 6
                                         (VSite Sample.site1) None H1 H2)
                                  eq_refl) eq_refl))).
  - set (w := Sample.url_form _).
    assert (H1 : generic_submission w "7" 7 Sample.article "99999999999999999999"
                   99999999999999999999 (VSite Sample.site1) None).
    { split; try reflexivity; try by_decide. right. by eexists. }
    assert (H2 : forall s, objects Sample.article !! 99999999999999999999 = Some s ->
                           ~ in_scope Sample.article (VSite Sample.site1)
                               99999999999999999999 s).
    { intros s Hs. vm_compute in Hs. discriminate. }
    exact (proj1 (proj2 (proj2 (clean_missing_object_outcomes
                                  w "7" 7 Sample.article "99999999999999999999"
                                  99999999999999999999 (VSite Sample.site1) None H1 H2)
                           eq_refl))).
Defined.

(** C6. When the selected [url_type] is a basic kind, its own field came
    out of field cleaning empty and carries no error yet, [clean] files
    "Field is required" under that field. *)
Theorem clean_requires_basic_value (w : World) (t : string) (v : value) :
  is_UrlForm w ->
  cleaned_data (self w) !! "url_type" = Some (VStr t) ->
  t ∈ basic_type_names ->
  cleaned_data (self w) !! t = Some v ->
  truthy v = false ->
  errors (self w) !! t = None ->
  exists w', UrlForm.clean w = Return tt w'
    /\ errors (self w') = <[t := ["Field is required"]]> (errors (self w)).
Proof.
  intros Hform Htype Hbasic Hv Hempty Hnoerr.
  assert (Hsub : submitted_type w = VStr t) by (unfold submitted_type; by rewrite Htype).
  rewrite clean_unfold. cbv zeta. rewrite Hsub. cbn [UrlForm.is_basic UrlForm.name_of].
  rewrite (bool_decide_true _ Hbasic), blanked_errors, (bool_decide_true _ Hnoerr).
  rewrite blanked_lookup, Hsub, bool_decide_false by (intros [_ H]; by apply H).
  rewrite Hv, Hempty. cbn [negb].
  rewrite add_error_run.
  - eexists. split; [done|]. unfold with_error. cbn. rewrite Hnoerr. done.
  - rewrite blanked_fields. apply Hform. by apply basic_in_Meta.
Qed.

Lemma clean_requires_basic_value_witness :
  exists w', UrlForm.clean
               (Sample.url_form {[ "url_type" := VStr "anchor"; "anchor" := VStr "";
                                   "phone" := VStr "555"; "content_object" := VStr "" ]})
             = Return tt w'
    /\ errors (self w') = {[ "anchor" := ["Field is required"] ]}.
Proof.
  assert (Hform : is_UrlForm
                    (Sample.url_form {[ "url_type" := VStr "anchor"; "anchor" := VStr "";
                                        "phone" := VStr "555";
                                        "content_object" := VStr "" ]})) by by_decide.
  assert (Hbasic : "anchor" ∈ basic_type_names) by by_decide.
  exact (clean_requires_basic_value _ "anchor" (VStr "") Hform eq_refl Hbasic eq_refl
           eq_refl eq_refl).
Defined.

(** ** What a computation leaves untouched *)

Lemma touches_refl K w : touches K w w.
Proof. by repeat split. Qed.

Lemma touches_trans K w1 w2 w3 : touches K w1 w2 -> touches K w2 w3 -> touches K w1 w3.
Proof.
  intros (Ha1&Ha2&Ha3&Ha4&Ha5&Ha6) (Hb1&Hb2&Hb3&Hb4&Hb5&Hb6).
  repeat split; try congruence.
  intros k Hk. rewrite Hb6, Ha6; done.
Qed.

Lemma preserves_ret K {A} (a : A) : preserves K (mret a).
Proof. intros w. apply touches_refl. Qed.

Lemma preserves_raise K {A} e : preserves K (raise e : M A).
Proof. intros w. apply touches_refl. Qed.

Lemma preserves_bind K {A B} (c : M A) (k : A -> M B) :
  preserves K c -> (forall a, preserves K (k a)) -> preserves K (c ≫= k).
Proof.
  intros Hc Hk w. unfold mbind, M_bind, bind. specialize (Hc w).
  destruct (c w) as [a w'|e w']; [|done].
  specialize (Hk a w'). destruct (k a w'); by eapply touches_trans.
Qed.

Lemma preserves_try K {A} (body : M A) handler :
  preserves K body -> (forall e h, handler e = Some h -> preserves K h) ->
  preserves K (try_except body handler).
Proof.
  intros Hb Hh w. unfold try_except. specialize (Hb w).
  destruct (body w) as [a w'|e w']; [done|].
  destruct (handler e) as [h|] eqn:E; [|done].
  specialize (Hh e h E w'). destruct (h w'); by eapply touches_trans.
Qed.

Lemma reads_preserves K {A} (c : M A) : reads_db c -> preserves K c.
Proof.
  intros Hc w. destruct (Hc (db w)) as [r Hr]. rewrite (Hr w eq_refl).
  destruct r; apply touches_refl.
Qed.

Lemma preserves_cleaned_get K key : preserves K (cleaned_get key).
Proof. intros w. apply touches_refl. Qed.

Lemma preserves_cleaned_getitem K key : preserves K (cleaned_getitem key).
Proof. intros w. unfold cleaned_getitem. destruct (_ !! _); apply touches_refl. Qed.

Lemma preserves_data_getitem K key : preserves K (data_getitem key).
Proof. intros w. unfold data_getitem. destruct (_ !! _); apply touches_refl. Qed.

Lemma preserves_get_world K : preserves K get_world.
Proof. intros w. apply touches_refl. Qed.

Lemma preserves_cleaned_setitem (K : string -> Prop) key v :
  K key -> preserves K (cleaned_setitem key v).
Proof.
  intros HK w. unfold cleaned_setitem, modify, touches. cbn.
  repeat split. intros k Hk.
  rewrite lookup_insert_ne; [done|]. by intros ->.
Qed.

Lemma preserves_add_error_list (K : string -> Prop) field msgs :
  K field -> preserves K (add_error_list field msgs).
Proof.
  intros HK w. unfold add_error_list.
  assert (Hrec : forall old,
             touches K w (set_cleaned_data (delete field (cleaned_data (self w)))
                            (set_errors (<[field := (old ++ msgs)%list]> (errors (self w))) w))).
  { intros old. unfold touches. cbn. repeat split. intros k Hk.
    rewrite lookup_delete_ne; [done|]. by intros ->. }
  destruct (errors (self w) !! field); [apply Hrec|].
  destruct (_ && _); [apply touches_refl|apply Hrec].
Qed.

(** ** The queries read the database only *)

Lemma reads_ret {A} (a : A) : reads_db (mret a).
Proof. intros d. by exists (inr a). Qed.

Lemma reads_raise {A} e : reads_db (raise e : M A).
Proof. intros d. by exists (inl e). Qed.

Lemma reads_bind {A B} (c : M A) (k : A -> M B) :
  reads_db c -> (forall a, reads_db (k a)) -> reads_db (c ≫= k).
Proof.
  intros Hc Hk d. destruct (Hc d) as [[e|a] Hr].
  - exists (inl e). intros w Hw. unfold mbind, M_bind, bind. by rewrite (Hr w Hw).
  - destruct (Hk a d) as [r' Hr']. exists r'. intros w Hw.
    unfold mbind, M_bind, bind. rewrite (Hr w Hw). by apply Hr'.
Qed.

Lemma reads_builtin_int v : reads_db (builtin_int v).
Proof.
  destruct v; try apply reads_raise; try apply reads_ret.
  cbn. destruct (py_int s); [apply reads_ret|apply reads_raise].
Qed.

Lemma reads_int_prep v : reads_db (int_prep v).
Proof.
  destruct v; try apply reads_ret;
    (apply reads_bind; [apply reads_builtin_int|intros; apply reads_ret]).
Qed.

Lemma reads_fk_prep v : reads_db (fk_prep v).
Proof. destruct v; try apply reads_ret; apply reads_int_prep. Qed.

Lemma reads_get_for_id v : reads_db (get_for_id v).
Proof.
  apply reads_bind; [apply reads_int_prep|]. intros [z|] d.
  - destruct (content_types d !! z) as [model|] eqn:E.
    + exists (inr (mkContentType z model)). intros w <-. cbn.
      unfold mbind, M_bind, bind, get_world. by rewrite E.
    + exists (inl (not_found z)). intros w <-. cbn.
      unfold mbind, M_bind, bind, get_world. by rewrite E.
  - by exists (inl ObjectDoesNotExist).
Qed.

Lemma reads_filter_site site qs : reads_db (filter_site site qs).
Proof. apply reads_bind; [apply reads_fk_prep|intros; apply reads_ret]. Qed.

Lemma reads_qs_get ct qs v : reads_db (qs_get ct qs v).
Proof.
  apply reads_bind; [apply reads_int_prep|]. intros [z|]; [|apply reads_raise].
  destruct (qs !! z); [apply reads_ret|apply reads_raise].
Qed.

Lemma reads_lookup url_type content_object site :
  reads_db (UrlForm.lookup url_type content_object site).
Proof.
  apply reads_bind; [apply reads_get_for_id|]. intros ct.
  apply reads_bind.
  - destruct (on_site _); [apply reads_ret|].
    destruct (has_site _); [apply reads_filter_site|apply reads_ret].
  - intros qs. apply reads_bind; [apply reads_qs_get|intros; apply reads_ret].
Qed.

Lemma reads_Url_filter_exclude_exists ct oid g :
  reads_db (Url_filter_exclude_exists ct oid g).
Proof.
  apply reads_bind; [apply reads_int_prep|]. intros o.
  apply reads_bind; [apply reads_fk_prep|]. intros g' d.
  exists (inr (existsb (kept ct o g') (url_table d))). by intros w <-.
Qed.

(** ** [UrlForm.clean] writes its own keys only *)

Lemma preserves_add_error (K : string -> Prop) field msg :
  K field -> preserves K (add_error field msg).
Proof. apply preserves_add_error_list. Qed.

Lemma preserves_blank_others names url_type :
  (forall n, n ∈ names -> cleaned_by_UrlForm n) ->
  preserves cleaned_by_UrlForm (UrlForm.blank_others names url_type).
Proof.
  induction names as [|n names IH]; intros Hn; [apply preserves_ret|].
  cbn [UrlForm.blank_others]. apply preserves_bind.
  - case_bool_decide; [|apply preserves_ret].
    apply preserves_cleaned_setitem, Hn. by left.
  - intros _. apply IH. intros m Hm. apply Hn. by right.
Qed.

Lemma preserves_check_unique ct : preserves cleaned_by_UrlForm (UrlForm.check_unique ct).
Proof.
  apply preserves_bind; [apply preserves_cleaned_get|]. intros url.
  destruct (negb (truthy url)); [|apply preserves_ret].
  apply preserves_bind; [apply preserves_cleaned_get|]. intros g.
  apply preserves_bind; [apply preserves_cleaned_getitem|]. intros oid.
  apply preserves_bind; [apply reads_preserves, reads_Url_filter_exclude_exists|].
  intros [|]; [|apply preserves_ret]. apply preserves_add_error. by right.
Qed.

Lemma preserves_resolve url_type content_object site :
  preserves cleaned_by_UrlForm (UrlForm.resolve url_type content_object site).
Proof.
  apply preserves_bind; [apply reads_preserves, reads_lookup|]. intros found.
  apply preserves_bind; [apply preserves_check_unique|]. intros _.
  apply preserves_cleaned_setitem. by right.
Qed.

Lemma preserves_clean : preserves cleaned_by_UrlForm UrlForm.clean.
Proof.
  apply preserves_bind; [apply preserves_cleaned_get|]. intros url_type.
  apply preserves_bind; [apply preserves_cleaned_get|]. intros content_object.
  cbv zeta. apply preserves_bind.
  { apply preserves_blank_others. intros n Hn. by left. }
  intros _. destruct (UrlForm.is_basic url_type) eqn:Hbasic.
  - apply preserves_bind; [apply preserves_get_world|]. intros w.
    case_bool_decide; [|apply preserves_ret].
    apply preserves_bind; [apply preserves_cleaned_getitem|]. intros v.
    destruct (negb (truthy v)); [|apply preserves_ret].
    apply preserves_add_error. left.
    destruct url_type; try discriminate. unfold UrlForm.is_basic in Hbasic.
    apply bool_decide_eq_true_1 in Hbasic. exact Hbasic.
  - destruct (truthy content_object).
    + apply preserves_bind; [apply preserves_cleaned_get|]. intros site.
      apply preserves_try; [apply preserves_resolve|].
      intros e h He. destruct e; try discriminate. injection He as <-.
      apply preserves_bind; [apply preserves_data_getitem|]. intros s.
      apply preserves_add_error. by right.
    + apply preserves_add_error. by right.
Qed.



(** ** [HtmlLinkForm.clean] *)

(** C2. A submission whose [url_grouper] did not pass field cleaning (the
    field is required, an empty value leaves no entry in the cleaned data)
    makes [clean] raise [KeyError], which the form machinery does not
    catch: the exception leaves [full_clean] instead of becoming an error
    of the form. *)
Theorem link_clean_missing_grouper w :
  cleaned_data (self w) !! "url_grouper" = None ->
  _clean_form HtmlLinkForm.clean w = Raise (KeyError "url_grouper") w
  /\ full_clean HtmlLinkForm.clean w = Raise (KeyError "url_grouper") w.
Proof.
  intros Hnone.
  assert (H : _clean_form HtmlLinkForm.clean w = Raise (KeyError "url_grouper") w).
  { unfold _clean_form, HtmlLinkForm.clean, try_except. mstep.
    unfold cleaned_getitem. by rewrite Hnone. }
  split; [done|]. unfold full_clean. mstep. by rewrite H.
Qed.

Lemma link_clean_missing_grouper_witness :
  full_clean HtmlLinkForm.clean
    (Sample.link_form ∅ {[ "url_grouper" := ["This field is required."] ]})
  = Raise (KeyError "url_grouper")
      (Sample.link_form ∅ {[ "url_grouper" := ["This field is required."] ]}).
Proof.
  exact (proj2 (link_clean_missing_grouper
                  (Sample.link_form ∅ {[ "url_grouper" := ["This field is required."] ]})
                  eq_refl)).
Defined.

(** C3. With a [url_grouper] string in the cleaned data of a form that has
    no field named [url]: a string that [int] rejects, and a key that no
    [UrlGrouper] has, both end in the [ValueError] that [add_error] raises
    for the unknown field [url], and no error is filed; a key that a
    [UrlGrouper] has puts that grouper in the cleaned data. *)
Theorem link_clean_outcomes w s :
  "url" ∉ fields (self w) ->
  errors (self w) !! "url" = None ->
  cleaned_data (self w) !! "url_grouper" = Some (VStr s) ->
  (py_int s = None ->
     HtmlLinkForm.clean w
     = Raise (ValueError ("'" +:+ class_name (self w) +:+ "' has no field named 'url'.")) w)
  /\ (forall z, py_int s = Some z -> z ∉ url_groupers (db w) ->
        HtmlLinkForm.clean w
        = Raise (ValueError ("'" +:+ class_name (self w)
                             +:+ "' has no field named 'url'.")) w)
  /\ (forall z, py_int s = Some z -> z ∈ url_groupers (db w) ->
        HtmlLinkForm.clean w
        = Return tt (set_cleaned_data
                       (<["url_grouper" := VGrouper z]> (cleaned_data (self w))) w)).
Proof.
  intros Hfield Herr Hcd.
  assert (Hadd : forall msg,
             add_error "url" msg w
             = Raise (ValueError ("'" +:+ class_name (self w)
                                  +:+ "' has no field named 'url'.")) w).
  { intros msg. unfold add_error, add_error_list. rewrite Herr.
    rewrite (bool_decide_true ("url" ≠ NON_FIELD_ERRORS)) by done.
    by rewrite (bool_decide_true _ Hfield). }
  unfold HtmlLinkForm.clean, try_except. mstep.
  rewrite (cleaned_getitem_run _ _ _ Hcd). cbv beta iota.
  unfold builtin_int, UrlGrouper_get, get_world. mstep.
  repeat split.
  - intros Hs. rewrite Hs. apply Hadd.
  - intros z Hs Hz. rewrite Hs. unfold raise. cbv beta iota.
    rewrite (bool_decide_false _ Hz). apply Hadd.
  - intros z Hs Hz. rewrite Hs. cbv beta iota. by rewrite (bool_decide_true _ Hz).
Qed.

Lemma link_clean_outcomes_witness :
  HtmlLinkForm.clean (Sample.link_form {[ "url_grouper" := VStr "abc" ]} ∅)
  = Raise (ValueError "'HtmlLinkForm' has no field named 'url'.")
      (Sample.link_form {[ "url_grouper" := VStr "abc" ]} ∅)
  /\ HtmlLinkForm.clean (Sample.link_form {[ "url_grouper" := VStr "11" ]} ∅)
     = Raise (ValueError "'HtmlLinkForm' has no field named 'url'.")
         (Sample.link_form {[ "url_grouper" := VStr "11" ]} ∅)
  /\ HtmlLinkForm.clean (Sample.link_form {[ "url_grouper" := VStr "10" ]} ∅)
     = Return tt (Sample.link_form {[ "url_grouper" := VGrouper 10 ]} ∅).
Proof.
  assert (Hfield : forall cd, "url" ∉ fields (self (Sample.link_form cd ∅)))
    by (intros cd; by_decide).
  split; [|split].
  - exact (proj1 (link_clean_outcomes
                     (Sample.link_form {[ "url_grouper" := VStr "abc" ]} ∅) "abc"
                     (Hfield _) eq_refl eq_refl) eq_refl).
  - refine (proj1 (proj2 (link_clean_outcomes
                            (Sample.link_form {[ "url_grouper" := VStr "11" ]} ∅) "11"
                            (Hfield _) eq_refl eq_refl))
              11 eq_refl _).
    by_decide.
  - refine (proj2 (proj2 (link_clean_outcomes
                            (Sample.link_form {[ "url_grouper" := VStr "10" ]} ∅) "10"
                            (Hfield _) eq_refl eq_refl))
              10 eq_refl _).
    by_decide.
Defined.

(** ** Valid submissions *)

Lemma add_error_nonempty field msg w w' :
  add_error field msg w = Return tt w' -> errors (self w') ≠ ∅.
Proof.
  unfold add_error, add_error_list.
  destruct (errors (self w) !! field).
  - intros [= <-]. apply insert_non_empty.
  - destruct (_ && _); [done|]. intros [= <-]. apply insert_non_empty.
Qed.

Lemma check_unique_cases ct w :
  UrlForm.check_unique ct w = Return tt w
  \/ UrlForm.check_unique ct w
     = add_error "content_object" "Url with this object already exists" w
  \/ exists e, UrlForm.check_unique ct w = Raise e w.
Proof.
  unfold UrlForm.check_unique. mstep. rewrite cleaned_get_run. cbv beta iota.
  destruct (negb (truthy _)); [|by left].
  rewrite cleaned_get_run. cbv beta iota. unfold cleaned_getitem.
  destruct (cleaned_data (self w) !! "content_object") as [oid|]; [|right; right; by eexists].
  destruct (reads_Url_filter_exclude_exists (ct_id ct) oid
              (default VNone (cleaned_data (self w) !! "url_grouper")) (db w)) as [r Hr].
  rewrite (Hr w eq_refl). destruct r as [e|[|]].
  - right; right; by eexists.
  - right; by left.
  - by left.
Qed.

(** A [clean] that returns without any error on the form has either kept
    a basic value or resolved the content object. *)
Lemma clean_valid_inv w w1 :
  UrlForm.clean w = Return tt w1 ->
  errors (self w1) = ∅ ->
  if UrlForm.is_basic (submitted_type w) then
    w1 = blanked w
    /\ exists v, cleaned_data (self w) !! UrlForm.name_of (submitted_type w) = Some v
                 /\ truthy v = true
  else
    exists found,
      UrlForm.lookup (submitted_type w)
        (default VNone (cleaned_data (self w) !! "content_object"))
        (default VNone (cleaned_data (self w) !! "site")) w = Return found w
      /\ w1 = set_cleaned_data
                (<["content_object" := VObj found.2]> (cleaned_data (self (blanked w))))
                (blanked w).
Proof.
  intros Hclean Hvalid. rewrite clean_unfold in Hclean. cbv zeta in Hclean.
  destruct (UrlForm.is_basic (submitted_type w)) eqn:Hbasic.
  - case_bool_decide as Herr.
    + assert (Hkey : cleaned_data (self (blanked w)) !! UrlForm.name_of (submitted_type w)
                     = cleaned_data (self w) !! UrlForm.name_of (submitted_type w)).
      { rewrite blanked_lookup, bool_decide_false; [done|]. intros [_ Hne]. apply Hne.
        destruct (submitted_type w); try discriminate. reflexivity. }
      rewrite Hkey in Hclean.
      destruct (cleaned_data (self w) !! _) as [v|]; [|done].
      destruct (truthy v) eqn:Hv; cbn [negb] in Hclean.
      * injection Hclean as <-. split; [done|]. by exists v.
      * by apply add_error_nonempty in Hclean.
    + injection Hclean as <-. exfalso. apply Herr.
      rewrite Hvalid. apply lookup_empty.
  - destruct (truthy _).
    + rewrite (blanked_lookup_other w "site") in Hclean by (by apply not_basic_key).
      unfold try_except, UrlForm.resolve in Hclean. revert Hclean. mstep.
      destruct (reads_lookup (submitted_type w)
                  (default VNone (cleaned_data (self w) !! "content_object"))
                  (default VNone (cleaned_data (self w) !! "site")) (db w)) as [r Hr].
      rewrite (Hr (blanked w) eq_refl), (Hr w eq_refl).
      destruct r as [e|found]; cbv beta iota.
      * destruct e; try done. cbn. unfold data_getitem. mstep.
        destruct (data (self (blanked w)) !! "url_type"); [|done].
        intros Hclean. by apply add_error_nonempty in Hclean.
      * destruct (check_unique_cases found.1 (blanked w)) as [Hc|[Hc|[e Hc]]]; rewrite Hc.
        -- intros [= <-]. by exists found.
        -- destruct (add_error _ _ (blanked w)) as [[] w'|e w'] eqn:Hadd.
           ++ apply add_error_nonempty in Hadd. intros [= <-]. done.
           ++ destruct e; try done. cbn. unfold data_getitem. mstep.
              destruct (data (self w') !! "url_type"); [|done].
              intros Hclean. by apply add_error_nonempty in Hclean.
        -- destruct e; try done. cbn. unfold data_getitem. mstep.
           destruct (data (self (blanked w)) !! "url_type"); [|done].
           intros Hclean. by apply add_error_nonempty in Hclean.
    + by apply add_error_nonempty in Hclean.
Qed.

(** ** [save] *)

Lemma construct_instance_run w :
  construct_instance w = Return tt (set_instance (constructed (self w)) w).
Proof. reflexivity. Qed.

Lemma set_content_object_run i v w :
  v = VNone \/ (exists o, v = VObj o) ->
  set_content_object i v w = Return (linked i v) w.
Proof. by intros [->|[o ->]]. Qed.

Lemma create_grouper_run url w :
  UrlForm.create_grouper url w
  = Return (grouped url (db w)).1 (set_db (grouped url (db w)).2 w).
Proof.
  unfold UrlForm.create_grouper, grouped.
  destruct (_ && _); [reflexivity|]. by destruct w.
Qed.

Lemma Model_save_run url w :
  Model_save url w = Return (stored url (db w)).1 (set_db (stored url (db w)).2 w).
Proof. reflexivity. Qed.

(** What [save] returns and leaves on a form without errors. *)
Lemma save_run commit w :
  errors (self w) = ∅ ->
  target w = VNone \/ (exists o, target w = VObj o) ->
  UrlForm.save commit w =
    let g := grouped (linked (instance (self w)) (target w)) (db w) in
    let s := if commit then stored g.1 g.2 else g in
    Return s.1 (set_db s.2 (set_instance s.1 w)).
Proof.
  intros Hvalid Htarget. unfold UrlForm.save. mstep.
  rewrite cleaned_get_run. cbv beta iota. fold (submitted_type w).
  unfold super_save. rewrite (bool_decide_true _ Hvalid). cbv beta iota.
  assert (Hset : (if UrlForm.is_basic (submitted_type w)
                  then set_content_object (instance (self w)) VNone
                  else fun w0 => match cleaned_get "content_object" w0 with
                                 | Return a w' => set_content_object (instance (self w)) a w'
                                 | Raise e w' => Raise e w'
                                 end) w
                 = Return (linked (instance (self w)) (target w)) w).
  { unfold target in *. destruct (UrlForm.is_basic _).
    - by apply set_content_object_run.
    - rewrite cleaned_get_run. by apply set_content_object_run. }
  rewrite Hset. cbv beta iota. unfold modify. cbv beta iota.
  rewrite create_grouper_run. cbv beta iota zeta.
  destruct commit.
  - rewrite Model_save_run. by destruct w as [[] ?].
  - by destruct w as [[] ?].
Qed.

Lemma save_valid commit w url w' :
  UrlForm.save commit w = Return url w' -> errors (self w) = ∅.
Proof.
  unfold UrlForm.save. mstep. rewrite cleaned_get_run. cbv beta iota.
  unfold super_save. case_bool_decide; done.
Qed.

Lemma full_clean_valid_inv (clean : M unit) w w2 :
  full_clean clean w = Return tt w2 ->
  errors (self w2) = ∅ ->
  exists w1, clean w = Return tt w1 /\ errors (self w1) = ∅
             /\ w2 = set_instance (constructed (self w1)) w1.
Proof.
  unfold full_clean, _clean_form, _post_clean, try_except. mstep.
  destruct (clean w) as [[] w1|e w1].
  - rewrite construct_instance_run. intros [= <-] Hvalid. by exists w1.
  - destruct e; try done.
    destruct (add_error_list field [message] w1) as [[] w'|] eqn:Hadd; [|done].
    rewrite construct_instance_run. intros [= <-] Hvalid.
    by apply (add_error_nonempty field message) in Hadd.
Qed.

Lemma constructed_lookup f n v :
  n ∈ Url_model_fields -> n ∈ fields f -> cleaned_data f !! n = Some v ->
  attrs (constructed f) !! n = Some v.
Proof.
  intros Hmodel Hfield Hv. unfold constructed.
  assert (H : forall names i,
             attrs (foldl (fun i name =>
                             match cleaned_data f !! name with
                             | Some v => if bool_decide (name ∈ fields f)
                                         then setattr i name v else i
                             | None => i
                             end) i names) !! n
             = if bool_decide (n ∈ names) then Some v else attrs i !! n).
  { induction names as [|x names IH]; intros i; cbn [foldl].
    - rewrite bool_decide_false; [done|]. apply not_elem_of_nil.
    - rewrite IH. destruct (decide (n ∈ names)) as [Hin|Hout].
      + rewrite !bool_decide_true; [done| |done]. by right.
      + rewrite (bool_decide_false _ Hout). destruct (decide (x = n)) as [->|Hne].
        * rewrite Hv, (bool_decide_true _ Hfield). cbn.
          rewrite lookup_insert_eq, bool_decide_true; [done|]. by left.
        * rewrite (bool_decide_false (n ∈ x :: names)).
          -- destruct (cleaned_data f !! x); [|done].
             destruct (bool_decide (x ∈ fields f)); [|done].
             cbn. by rewrite lookup_insert_ne.
          -- rewrite elem_of_cons. intros [->|?]; done. }
  rewrite H. by rewrite bool_decide_true.
Qed.

Lemma basic_is_column n : n ∈ basic_type_names -> n ∈ Url_model_fields.
Proof.
  unfold basic_type_names. cbn. rewrite !elem_of_cons, elem_of_nil.
  intros [->|[->|[->|[->|[->|[]]]]]]; by_decide.
Qed.

Lemma linked_lookup i v k :
  k ≠ "content_type" -> k ≠ "object_id" -> k ≠ "content_object" ->
  attrs (linked i v) !! k = attrs i !! k.
Proof. intros. unfold linked. cbn. by rewrite !lookup_insert_ne. Qed.

Lemma grouped_lookup url d k :
  k ≠ "url_grouper" -> attrs (grouped url d).1 !! k = attrs url !! k.
Proof.
  intros. unfold grouped. destruct (_ && _); [|done]. cbn. by rewrite lookup_insert_ne.
Qed.

Lemma stored_lookup url d k : k ≠ "id" -> attrs (stored url d).1 !! k = attrs url !! k.
Proof. intros. unfold stored. cbn. by rewrite lookup_insert_ne. Qed.

(** The attributes of the instance that [save] returns. *)
Lemma saved_lookup (commit : bool) i v d k :
  k ≠ "url_grouper" -> k ≠ "id" ->
  attrs (if commit then stored (grouped (linked i v) d).1 (grouped (linked i v) d).2
         else grouped (linked i v) d).1 !! k
  = attrs (linked i v) !! k.
Proof.
  intros Hg Hid. destruct commit.
  - by rewrite stored_lookup, grouped_lookup.
  - by rewrite grouped_lookup.
Qed.

Lemma basic_not_reserved n :
  n ∈ basic_type_names ->
  n ≠ "content_type" /\ n ≠ "object_id" /\ n ≠ "content_object"
  /\ n ≠ "url_grouper" /\ n ≠ "id".
Proof.
  unfold basic_type_names. cbn. rewrite !elem_of_cons, elem_of_nil.
  intros [->|[->|[->|[->|[->|[]]]]]]; repeat split; discriminate.
Qed.

(** A form that [full_clean] leaves without errors. *)
Lemma valid_shape w w2 :
  full_clean UrlForm.clean w = Return tt w2 ->
  errors (self w2) = ∅ ->
  exists w1,
    w2 = set_instance (constructed (self w1)) w1
    /\ submitted_type w2 = submitted_type w
    /\ fields (self w1) = fields (self w)
    /\ if UrlForm.is_basic (submitted_type w) then
         w1 = blanked w /\ target w2 = VNone
         /\ exists v, cleaned_data (self w) !! UrlForm.name_of (submitted_type w) = Some v
                      /\ truthy v = true
       else
         exists found,
           UrlForm.lookup (submitted_type w)
             (default VNone (cleaned_data (self w) !! "content_object"))
             (default VNone (cleaned_data (self w) !! "site")) w = Return found w
           /\ w1 = set_cleaned_data
                     (<["content_object" := VObj found.2]> (cleaned_data (self (blanked w))))
                     (blanked w)
           /\ target w2 = VObj found.2.
Proof.
  intros Hfull Hvalid.
  destruct (full_clean_valid_inv _ _ _ Hfull Hvalid) as (w1 & Hclean & Hvalid1 & ->).
  pose proof (clean_valid_inv _ _ Hclean Hvalid1) as Hinv.
  exists w1. split; [done|].
  assert (Htype : submitted_type (set_instance (constructed (self w1)) w1) = submitted_type w).
  { change (submitted_type (set_instance (constructed (self w1)) w1))
      with (default VNone (cleaned_data (self w1) !! "url_type")).
    destruct (UrlForm.is_basic _); [destruct Hinv as [-> _]|destruct Hinv as (? & _ & ->)].
    - by rewrite (blanked_lookup_other w "url_type") by (by apply not_basic_key).
    - change (cleaned_data (self (set_cleaned_data ?d _))) with d.
      rewrite lookup_insert_ne by done.
      by rewrite (blanked_lookup_other w "url_type") by (by apply not_basic_key). }
  split; [done|]. split.
  { pose proof (preserves_clean w) as Hp. rewrite Hclean in Hp.
    by destruct Hp as (_ & _ & Hp & _). }
  unfold target. rewrite Htype.
  destruct (UrlForm.is_basic (submitted_type w)).
  - destruct Hinv as [-> Hv]. done.
  - destruct Hinv as (found & Hlookup & ->).
    exists found. split; [done|]. split; [done|].
    change (cleaned_data (self (set_instance _ (set_cleaned_data ?d _)))) with d.
    by rewrite lookup_insert_eq.
Qed.

Lemma not_basic_ne n v :
  n ∈ basic_type_names -> UrlForm.is_basic v = false -> VStr n ≠ v.
Proof.
  intros Hn Hv <-. cbn in Hv. by rewrite (bool_decide_true _ Hn) in Hv.
Qed.

Lemma linked_reference i v :
  attrs (linked i v) !! "content_object" = Some v
  /\ attrs (linked i v) !! "content_type"
     = Some (match v with VObj o => VInt (obj_ct o) | _ => VNone end)
  /\ attrs (linked i v) !! "object_id"
     = Some (match v with VObj o => VInt (obj_pk o) | _ => VNone end).
Proof.
  unfold linked, setattr. cbn. split; [|split].
  - by rewrite lookup_insert_eq.
  - do 2 (rewrite lookup_insert_ne by done). by rewrite lookup_insert_eq.
  - rewrite lookup_insert_ne by done. by rewrite lookup_insert_eq.
Qed.



(** ** The grouper *)

Lemma next_pk_fresh pks : next_pk pks ∉ pks.
Proof.
  assert (Hmax : forall x, x ∈ pks -> (x <= foldr Z.max 0 pks)%Z).
  { induction pks as [|y pks IH]; intros x Hx.
    - by apply elem_of_nil in Hx.
    - cbn [foldr]. apply elem_of_cons in Hx as [->|Hx]; [lia|].
      specialize (IH x Hx). lia. }
  intros Hin. apply Hmax in Hin. unfold next_pk in Hin. lia.
Qed.

Lemma grouped_new url d :
  klass url = UrlModel -> truthy (getattr url "url_grouper") = false ->
  grouped url d
  = (setattr url "url_grouper" (VGrouper (next_pk (url_groupers d))),
     mkDB (content_types d) (url_table d) (override_table d)
       (url_groupers d ++ [next_pk (url_groupers d)])%list).
Proof.
  intros Hklass Hnone. unfold grouped.
  by rewrite (bool_decide_true _ Hklass), Hnone.
Qed.

Lemma grouped_kept url d :
  truthy (getattr url "url_grouper") = true -> grouped url d = (url, d).
Proof. intros Hsome. unfold grouped. by rewrite Hsome, andb_false_r. Qed.

Lemma stored_groupers url d : url_groupers (stored url d).2 = url_groupers d.
Proof. unfold stored. cbn. by destruct (bool_decide _). Qed.

Lemma linked_grouper i v : getattr (linked i v) "url_grouper" = getattr i "url_grouper".
Proof. unfold getattr. by rewrite linked_lookup. Qed.

(** The target of a form that [full_clean] leaves without errors. *)
Lemma valid_target w w2 :
  full_clean UrlForm.clean w = Return tt w2 -> errors (self w2) = ∅ ->
  target w2 = VNone \/ (exists o, target w2 = VObj o).
Proof.
  intros Hfull Hvalid.
  destruct (valid_shape _ _ Hfull Hvalid) as (w1 & _ & _ & _ & Hshape).
  destruct (UrlForm.is_basic (submitted_type w)).
  - left. by destruct Hshape as (_ & ? & _).
  - right. destruct Hshape as (found & _ & _ & ?). by eexists.
Qed.

(** C9. On a valid submission [save] returns, whatever [commit] is.  When
    the [Url] instance has no grouper, the returned instance carries a
    grouper whose key was in no row before and is in the table afterwards;
    when the instance has a grouper, the returned instance carries the
    same one and the grouper table is as it was. *)
Theorem save_attaches_grouper w w2 commit :
  full_clean UrlForm.clean w = Return tt w2 ->
  errors (self w2) = ∅ ->
  klass (instance (self w2)) = UrlModel ->
  exists url w3,
    UrlForm.save commit w2 = Return url w3
    /\ instance (self w3) = url
    /\ (truthy (getattr (instance (self w2)) "url_grouper") = false ->
        exists g, attrs url !! "url_grouper" = Some (VGrouper g)
                  /\ (g ∉ url_groupers (db w2))
                  /\ url_groupers (db w3) = (url_groupers (db w2) ++ [g])%list)
    /\ (truthy (getattr (instance (self w2)) "url_grouper") = true ->
        attrs url !! "url_grouper" = attrs (instance (self w2)) !! "url_grouper"
        /\ url_groupers (db w3) = url_groupers (db w2)).
Proof.
  intros Hfull Hvalid Hklass.
  rewrite save_run by eauto using valid_target. cbv zeta.
  eexists _, _. split; [reflexivity|]. split; [reflexivity|].
  cbn [db set_db]. split.
  - intros Hnone. exists (next_pk (url_groupers (db w2))).
    rewrite grouped_new by (done || (by rewrite linked_grouper)).
    split; [|split].
    + destruct commit; cbn [fst snd].
      * rewrite stored_lookup by done. cbn. by rewrite lookup_insert_eq.
      * cbn. by rewrite lookup_insert_eq.
    + apply next_pk_fresh.
    + destruct commit; cbn [fst snd]; [by rewrite stored_groupers|done].
  - intros Hsome. rewrite grouped_kept by (by rewrite linked_grouper).
    split.
    + destruct commit; cbn [fst snd].
      * rewrite stored_lookup by done. by apply linked_lookup.
      * by apply linked_lookup.
    + destruct commit; cbn [fst snd]; [by rewrite stored_groupers|done].
Qed.

Lemma save_attaches_grouper_witness :
  exists url w3,
    UrlForm.save true
      (world_after (full_clean UrlForm.clean)
         (Sample.url_form {[ "url_type" := VStr "phone"; "phone" := VStr "555";
                             "site" := VSite Sample.site1 ]})) = Return url w3
    /\ exists g, attrs url !! "url_grouper" = Some (VGrouper g)
                 /\ (g ∉ [10%Z])
                 /\ url_groupers (db w3) = [10%Z; g].
Proof.
  assert (Hfull : full_clean UrlForm.clean
                    (Sample.url_form {[ "url_type" := VStr "phone"; "phone" := VStr "555";
                                        "site" := VSite Sample.site1 ]})
                  = Return tt
                      (world_after (full_clean UrlForm.clean)
                         (Sample.url_form {[ "url_type" := VStr "phone";
                                             "phone" := VStr "555";
                                             "site" := VSite Sample.site1 ]})))
    by (vm_compute; reflexivity).
  destruct (save_attaches_grouper _ _ true Hfull eq_refl eq_refl)
    as (url & w3 & Hsave & _ & Hnew & _).
  exists url, w3. split; [exact Hsave|]. exact (Hnew eq_refl).
Defined.

(** C10. [save(commit=False)] on a valid submission whose [Url] instance
    has no grouper returns, and leaves one more row in the grouper table,
    under a key that was in no row before.  The [Url] and [UrlOverride]
    tables and the content types are as they were, and the returned
    instance has the primary key it had: it is not written. *)
Theorem save_uncommitted_creates_grouper w w2 :
  full_clean UrlForm.clean w = Return tt w2 ->
  errors (self w2) = ∅ ->
  klass (instance (self w2)) = UrlModel ->
  truthy (getattr (instance (self w2)) "url_grouper") = false ->
  exists url w3,
    UrlForm.save false w2 = Return url w3
    /\ url_groupers (db w3)
       = (url_groupers (db w2) ++ [next_pk (url_groupers (db w2))])%list
    /\ (next_pk (url_groupers (db w2)) ∉ url_groupers (db w2))
    /\ url_table (db w3) = url_table (db w2)
    /\ override_table (db w3) = override_table (db w2)
    /\ content_types (db w3) = content_types (db w2)
    /\ attrs url !! "id" = attrs (instance (self w2)) !! "id".
Proof.
  intros Hfull Hvalid Hklass Hnone.
  rewrite save_run by eauto using valid_target. cbv zeta.
  rewrite grouped_new by (done || (by rewrite linked_grouper)).
  eexists _, _. split; [reflexivity|]. cbn [fst snd db set_db].
  split; [done|]. split; [apply next_pk_fresh|]. do 3 (split; [done|]).
  cbn. rewrite lookup_insert_ne by done. by apply linked_lookup.
Qed.

Lemma save_uncommitted_creates_grouper_witness :
  exists url w3,
    UrlForm.save false
      (world_after (full_clean UrlForm.clean)
         (Sample.url_form {[ "url_type" := VStr "7"; "content_object" := VStr "6";
                             "site" := VSite Sample.site2 ]})) = Return url w3
    /\ url_groupers (db w3) = [10%Z; 11%Z]
    /\ url_table (db w3) = [mkUrlRow 1 (Some 7%Z) (Some 5%Z) (Some 10%Z)]
    /\ override_table (db w3) = []
    /\ attrs url !! "id" = None.
Proof.
  assert (Hfull : full_clean UrlForm.clean
                    (Sample.url_form {[ "url_type" := VStr "7";
                                        "content_object" := VStr "6";
                                        "site" := VSite Sample.site2 ]})
                  = Return tt
                      (world_after (full_clean UrlForm.clean)
                         (Sample.url_form {[ "url_type" := VStr "7";
                                             "content_object" := VStr "6";
                                             "site" := VSite Sample.site2 ]})))
    by (vm_compute; reflexivity).
  destruct (save_uncommitted_creates_grouper _ _ Hfull eq_refl eq_refl eq_refl)
    as (url & w3 & Hsave & Hg & _ & Hurl & Hover & _ & Hid).
  exists url, w3. split; [exact Hsave|]. split; [exact Hg|].
  split; [exact Hurl|]. split; [exact Hover|]. exact Hid.
Defined.

(** * Further properties *)

(** ** [UrlForm.clean]: the branches that file or raise *)

(** X1. When the cleaned [url_type] is no basic kind and the cleaned
    [content_object] is empty or missing, [clean] files "Field is
    required" under [content_object], after the errors that the field
    has, takes the key out of the cleaned data and leaves the errors of
    the other fields alone. *)
Theorem clean_requires_content_object w :
  "content_object" ∈ fields (self w) ->
  UrlForm.is_basic (submitted_type w) = false ->
  truthy (default VNone (cleaned_data (self w) !! "content_object")) = false ->
  exists w',
    UrlForm.clean w = Return tt w'
    /\ errors (self w') !! "content_object"
       = Some (default [] (errors (self w) !! "content_object")
               ++ ["Field is required"])%list
    /\ cleaned_data (self w') !! "content_object" = None
    /\ forall k, k ≠ "content_object" -> errors (self w') !! k = errors (self w) !! k.
Proof.
  intros Hfield Hbasic Hempty.
  rewrite clean_unfold. cbv zeta. rewrite Hbasic, Hempty.
  rewrite add_error_run by done.
  eexists. split; [reflexivity|]. split; [|split].
  - by rewrite with_error_errors.
  - unfold with_error. cbn. by rewrite lookup_delete_eq.
  - intros k Hk. unfold with_error. cbn. by rewrite lookup_insert_ne.
Qed.

Lemma clean_requires_content_object_witness :
  exists w',
    UrlForm.clean (Sample.url_form {[ "url_type" := VStr "7"; "content_object" := VStr "" ]})
    = Return tt w'
    /\ errors (self w') !! "content_object" = Some ["Field is required"]
    /\ cleaned_data (self w') !! "content_object" = None.
Proof.
  assert (Hfield : "content_object"
                   ∈ fields (self (Sample.url_form {[ "url_type" := VStr "7";
                                                      "content_object" := VStr "" ]})))
    by by_decide.
  destruct (clean_requires_content_object _ Hfield eq_refl eq_refl)
    as (w' & Hrun & Herr & Hgone & _).
  exists w'. split; [exact Hrun|]. split; [exact Herr|exact Hgone].
Defined.

(** What runs after the loop writes [content_object] and the field of the
    selected kind only. *)
Lemma preserves_check_unique_key (K : string -> Prop) ct :
  K "content_object" -> preserves K (UrlForm.check_unique ct).
Proof.
  intros HK.
  apply preserves_bind; [apply preserves_cleaned_get|]. intros url.
  destruct (negb (truthy url)); [|apply preserves_ret].
  apply preserves_bind; [apply preserves_cleaned_get|]. intros g.
  apply preserves_bind; [apply preserves_cleaned_getitem|]. intros oid.
  apply preserves_bind; [apply reads_preserves, reads_Url_filter_exclude_exists|].
  intros [|]; [|apply preserves_ret]. by apply preserves_add_error.
Qed.

Lemma preserves_resolve_key (K : string -> Prop) url_type content_object site :
  K "content_object" -> preserves K (UrlForm.resolve url_type content_object site).
Proof.
  intros HK.
  apply preserves_bind; [apply reads_preserves, reads_lookup|]. intros found.
  apply preserves_bind; [by apply preserves_check_unique_key|]. intros _.
  by apply preserves_cleaned_setitem.
Qed.

Lemma clean_after_loop w :
  touches (fun k => k = "content_object" \/ VStr k = submitted_type w)
    (blanked w) (world_after UrlForm.clean w).
Proof.
  set (K := fun k => k = "content_object" \/ VStr k = submitted_type w).
  unfold world_after. rewrite clean_unfold. cbv zeta.
  destruct (UrlForm.is_basic (submitted_type w)) eqn:Hbasic.
  - case_bool_decide; [|apply touches_refl].
    destruct (cleaned_data (self (blanked w)) !! _) as [v|]; [|apply touches_refl].
    destruct (negb (truthy v)); [|apply touches_refl].
    assert (HK : K (UrlForm.name_of (submitted_type w))).
    { right. by destruct (submitted_type w). }
    pose proof (preserves_add_error K _ "Field is required" HK (blanked w)) as Hp.
    by destruct (add_error _ _ _).
  - destruct (truthy _).
    + match goal with
      | |- context [try_except ?b ?h ?x] =>
          assert (Hp : preserves K (try_except b h))
      end.
      { apply preserves_try; [apply preserves_resolve_key; by left|].
        intros e h He. destruct e; try discriminate. injection He as <-.
        apply preserves_bind; [apply preserves_data_getitem|]. intros s.
        apply preserves_add_error. by left. }
      specialize (Hp (blanked w)). by destruct (try_except _ _ _).
    + pose proof (preserves_add_error K "content_object" "Field is required"
                    (or_introl eq_refl) (blanked w)) as Hp.
      by destruct (add_error _ _ _).
Qed.

(** X2. However [clean] ends, with or without errors, returning or
    raising, the cleaned data it leaves hold the empty string for every
    basic kind other than the cleaned [url_type]: a value submitted for a
    kind that is not selected is discarded. *)
Theorem clean_blanks_other_kinds w n :
  n ∈ basic_type_names ->
  VStr n ≠ submitted_type w ->
  cleaned_data (self (world_after UrlForm.clean w)) !! n = Some (VStr "").
Proof.
  intros Hn Hne.
  destruct (clean_after_loop w) as (_ & _ & _ & _ & _ & Hkeys).
  rewrite Hkeys.
  - rewrite blanked_lookup. by rewrite bool_decide_true.
  - intros [->|Heq]; [|done].
    apply basic_not_reserved in Hn as (_ & _ & Hn & _). done.
Qed.

Lemma clean_blanks_other_kinds_witness :
  cleaned_data
    (self (world_after UrlForm.clean
             (Sample.url_form {[ "url_type" := VStr "7"; "content_object" := VStr "99";
                                 "phone" := VStr "555";
                                 "site" := VSite Sample.site1 ]}))) !! "phone"
  = Some (VStr "").
Proof.
  assert (Hn : "phone" ∈ basic_type_names) by by_decide.
  refine (clean_blanks_other_kinds _ "phone" Hn _). discriminate.
Defined.

(** X3. However [clean] ends, it has written neither the database nor
    the instance, the submitted data or the set of fields, and in the
    cleaned data only the keys of the basic kinds and [content_object]. *)
Theorem clean_writes_own_keys w :
  db (world_after UrlForm.clean w) = db w
  /\ instance (self (world_after UrlForm.clean w)) = instance (self w)
  /\ data (self (world_after UrlForm.clean w)) = data (self w)
  /\ fields (self (world_after UrlForm.clean w)) = fields (self w)
  /\ forall k, k ∉ basic_type_names -> k ≠ "content_object" ->
       cleaned_data (self (world_after UrlForm.clean w)) !! k
       = cleaned_data (self w) !! k.
Proof.
  pose proof (preserves_clean w) as Hp. unfold world_after.
  assert (Hw : forall w', touches cleaned_by_UrlForm w w' ->
                 db w' = db w /\ instance (self w') = instance (self w)
                 /\ data (self w') = data (self w) /\ fields (self w') = fields (self w)
                 /\ forall k, k ∉ basic_type_names -> k ≠ "content_object" ->
                      cleaned_data (self w') !! k = cleaned_data (self w) !! k).
  { intros w' (H1 & _ & H3 & H4 & H5 & H6). repeat split; try done.
    intros k Hk Hc. apply H6. intros [?|?]; done. }
  destruct (UrlForm.clean w); by apply Hw.
Qed.

(** X4. A submission whose [url_type] did not pass field cleaning (no
    [url_type] in the cleaned data) and whose [content_object] is not
    empty finds no content type.  When [url_type] was submitted, [clean]
    files the error of [content_object] that names the submitted text;
    when it was not submitted at all, the message cannot be built:
    [self.data["url_type"]] raises [KeyError], and the exception leaves
    [full_clean]. *)
Theorem clean_without_valid_type w :
  "content_object" ∈ fields (self w) ->
  cleaned_data (self w) !! "url_type" = None ->
  truthy (default VNone (cleaned_data (self w) !! "content_object")) = true ->
  (forall t, data (self w) !! "url_type" = Some t ->
     UrlForm.clean w
     = Return tt (with_error "content_object"
                    (UrlForm.does_not_exist_message t
                       (default VNone (cleaned_data (self w) !! "site")))
                    (blanked w)))
  /\ (data (self w) !! "url_type" = None ->
      UrlForm.clean w = Raise (KeyError "url_type") (blanked w)
      /\ full_clean UrlForm.clean w = Raise (KeyError "url_type") (blanked w)).
Proof.
  intros Hfield Htype Hobject.
  assert (Hclean : UrlForm.clean w
                   = match data (self w) !! "url_type" with
                     | Some t =>
                         Return tt (with_error "content_object"
                                      (UrlForm.does_not_exist_message t
                                         (default VNone (cleaned_data (self w) !! "site")))
                                      (blanked w))
                     | None => Raise (KeyError "url_type") (blanked w)
                     end).
  { assert (Hst : submitted_type w = VNone) by (unfold submitted_type; by rewrite Htype).
    rewrite clean_unfold. cbv zeta. rewrite !Hst.
    cbn [UrlForm.is_basic]. rewrite Hobject.
    rewrite (blanked_lookup_other w "site") by (by apply not_basic_key).
    unfold try_except, UrlForm.resolve, UrlForm.lookup, get_for_id, int_prep. mstep.
    unfold get_world, raise. cbv beta iota. unfold UrlForm.except_clause. mstep.
    unfold data_getitem. change (data (self (blanked w))) with (data (self w)).
    destruct (data (self w) !! "url_type") as [t|]; [|done].
    by apply add_error_run. }
  split.
  - intros t Ht. by rewrite Hclean, Ht.
  - intros Hnone. rewrite Hnone in Hclean. split; [done|].
    unfold full_clean, _clean_form, try_except. mstep. by rewrite Hclean.
Qed.

Lemma clean_without_valid_type_witness :
  full_clean UrlForm.clean
    (mkWorld (mkForm "UrlForm" UrlForm.Meta_fields {[ "content_object" := "5" ]}
                {[ "content_object" := VStr "5" ]}
                {[ "url_type" := ["This field is required."] ]} Sample.new_url)
       Sample.database)
  = Raise (KeyError "url_type")
      (blanked
         (mkWorld (mkForm "UrlForm" UrlForm.Meta_fields {[ "content_object" := "5" ]}
                     {[ "content_object" := VStr "5" ]}
                     {[ "url_type" := ["This field is required."] ]} Sample.new_url)
            Sample.database)).
Proof.
  assert (Hfield : "content_object" ∈ UrlForm.Meta_fields) by by_decide.
  exact (proj2 (proj2 (clean_without_valid_type
                         (mkWorld (mkForm "UrlForm" UrlForm.Meta_fields
                                     {[ "content_object" := "5" ]}
                                     {[ "content_object" := VStr "5" ]}
                                     {[ "url_type" := ["This field is required."] ]}
                                     Sample.new_url) Sample.database)
                         Hfield eq_refl eq_refl) eq_refl)).
Defined.

(** X5. A [content_object] of ASCII text that is no integer, submitted
    for the model of an existing content type, makes the lookup by primary
    key raise [ValueError]; [except ObjectDoesNotExist] does not catch it,
    no error is filed and the exception leaves [full_clean]. *)
Theorem clean_non_numeric_object_raises w t k model c :
  cleaned_data (self w) !! "url_type" = Some (VStr t) ->
  py_int t = Some k ->
  content_types (db w) !! k = Some model ->
  cleaned_data (self w) !! "content_object" = Some (VStr c) ->
  c ≠ "" ->
  is_ascii c = true ->
  py_int c = None ->
  (cleaned_data (self w) !! "site" = None
   \/ exists s, cleaned_data (self w) !! "site" = Some (VSite s)) ->
  exists msg,
    UrlForm.clean w = Raise (ValueError msg) (blanked w)
    /\ full_clean UrlForm.clean w = Raise (ValueError msg) (blanked w)
    /\ errors (self (blanked w)) = errors (self w).
Proof.
  intros Htype Hk Hmodel Hobject Hne _ Hc Hsite.
  exists "invalid literal for int()".
  assert (Hclean : UrlForm.clean w
                   = Raise (ValueError "invalid literal for int()") (blanked w)).
  { assert (Hst : submitted_type w = VStr t) by (unfold submitted_type; by rewrite Htype).
    rewrite clean_unfold. cbv zeta. rewrite !Hst, Hobject.
    cbn [default from_option id]. rewrite (int_not_basic _ _ Hk).
    assert (Htruthy : truthy (VStr c) = true).
    { cbn. by destruct (String.eqb_spec c ""). }
    rewrite Htruthy.
    rewrite (blanked_lookup_other w "site") by (by apply not_basic_key).
    unfold try_except, UrlForm.resolve, UrlForm.lookup, get_for_id, int_prep, builtin_int.
    mstep. rewrite Hk. unfold get_world. cbv beta iota.
    change (db (blanked w)) with (db w). rewrite Hmodel. cbv beta iota. cbn [model_class_of ct_id].
    assert (Hget : forall qs x,
               qs_get k qs (VStr c) x = Raise (ValueError "invalid literal for int()") x).
    { intros qs x. unfold qs_get, int_prep, builtin_int. mstep. by rewrite Hc. }
    destruct (on_site model) as [scope|].
    - by rewrite Hget.
    - destruct (has_site model).
      + unfold filter_site. mstep.
        assert (Hprep : exists s, fk_prep (default VNone (cleaned_data (self w) !! "site"))
                                    (blanked w) = Return s (blanked w)).
        { destruct Hsite as [->|[s ->]]; by eexists. }
        destruct Hprep as [s ->]. cbv beta iota. by rewrite Hget.
      + by rewrite Hget. }
  split; [done|]. split; [|done].
  unfold full_clean, _clean_form, try_except. mstep. by rewrite Hclean.
Qed.

Lemma clean_non_numeric_object_raises_witness :
  exists msg,
    full_clean UrlForm.clean
      (Sample.url_form {[ "url_type" := VStr "7"; "content_object" := VStr "abc";
                          "site" := VSite Sample.site1 ]})
    = Raise (ValueError msg)
        (blanked (Sample.url_form {[ "url_type" := VStr "7";
                                     "content_object" := VStr "abc";
                                     "site" := VSite Sample.site1 ]})).
Proof.
  set (w := Sample.url_form {[ "url_type" := VStr "7"; "content_object" := VStr "abc";
                               "site" := VSite Sample.site1 ]}).
  assert (Ht : cleaned_data (self w) !! "url_type" = Some (VStr "7")) by reflexivity.
  assert (Hk : py_int "7" = Some 7) by reflexivity.
  assert (Hm : content_types (db w) !! 7 = Some Sample.article) by reflexivity.
  assert (Hc : cleaned_data (self w) !! "content_object" = Some (VStr "abc"))
    by reflexivity.
  assert (Hne : "abc" ≠ "") by discriminate.
  assert (Ha : is_ascii "abc" = true) by reflexivity.
  assert (Hi : py_int "abc" = None) by reflexivity.
  assert (Hs : cleaned_data (self w) !! "site" = None
               \/ exists s, cleaned_data (self w) !! "site" = Some (VSite s)).
  { right. by exists Sample.site1. }
  destruct (clean_non_numeric_object_raises w "7" 7 Sample.article "abc"
              Ht Hk Hm Hc Hne Ha Hi Hs) as (msg & _ & Hfull & _).
  exists msg. exact Hfull.
Defined.

(** ** Errors are only appended *)

Lemma errors_kept_refl w : errors_kept w w.
Proof. intros k l H. exists []. by rewrite app_nil_r. Qed.

Lemma errors_kept_trans w1 w2 w3 :
  errors_kept w1 w2 -> errors_kept w2 w3 -> errors_kept w1 w3.
Proof.
  intros H1 H2 k l Hk. destruct (H1 k l Hk) as [l1 Hl1].
  destruct (H2 k _ Hl1) as [l2 Hl2]. exists (l1 ++ l2)%list.
  rewrite Hl2. by rewrite <- app_assoc.
Qed.

Lemma appends_ret {A} (a : A) : appends_errors (mret a).
Proof. intros w. apply errors_kept_refl. Qed.

Lemma appends_raise {A} e : appends_errors (raise e : M A).
Proof. intros w. apply errors_kept_refl. Qed.

Lemma appends_bind {A B} (c : M A) (k : A -> M B) :
  appends_errors c -> (forall a, appends_errors (k a)) -> appends_errors (c ≫= k).
Proof.
  intros Hc Hk w. unfold mbind, M_bind, bind. specialize (Hc w).
  destruct (c w) as [a w'|e w']; [|done].
  specialize (Hk a w'). destruct (k a w'); by eapply errors_kept_trans.
Qed.

Lemma appends_try {A} (body : M A) handler :
  appends_errors body -> (forall e h, handler e = Some h -> appends_errors h) ->
  appends_errors (try_except body handler).
Proof.
  intros Hb Hh w. unfold try_except. specialize (Hb w).
  destruct (body w) as [a w'|e w']; [done|].
  destruct (handler e) as [h|] eqn:E; [|done].
  specialize (Hh e h E w'). destruct (h w'); by eapply errors_kept_trans.
Qed.

Lemma reads_appends {A} (c : M A) : reads_db c -> appends_errors c.
Proof.
  intros Hc w. destruct (Hc (db w)) as [r Hr]. rewrite (Hr w eq_refl).
  destruct r; apply errors_kept_refl.
Qed.

Lemma appends_cleaned_get key : appends_errors (cleaned_get key).
Proof. intros w. apply errors_kept_refl. Qed.

Lemma appends_cleaned_getitem key : appends_errors (cleaned_getitem key).
Proof. intros w. unfold cleaned_getitem. destruct (_ !! _); apply errors_kept_refl. Qed.

Lemma appends_data_getitem key : appends_errors (data_getitem key).
Proof. intros w. unfold data_getitem. destruct (_ !! _); apply errors_kept_refl. Qed.

Lemma appends_cleaned_setitem key v : appends_errors (cleaned_setitem key v).
Proof.
  intros w. unfold cleaned_setitem, modify. intros k l H.
  exists []. rewrite app_nil_r. exact H.
Qed.

Lemma appends_add_error_list field msgs : appends_errors (add_error_list field msgs).
Proof.
  intros w. unfold add_error_list.
  assert (Hrec : forall old,
             errors (self w) !! field = Some old \/ errors (self w) !! field = None ->
             errors_kept w
               (set_cleaned_data (delete field (cleaned_data (self w)))
                  (set_errors (<[field := (old ++ msgs)%list]> (errors (self w))) w))).
  { intros old Hold k l H.
    change (errors (self (set_cleaned_data ?d (set_errors ?e ?x)))) with e.
    destruct (decide (field = k)) as [->|Hne].
    - rewrite lookup_insert_eq. exists msgs. destruct Hold; congruence.
    - rewrite lookup_insert_ne by done. exists []. by rewrite app_nil_r. }
  destruct (errors (self w) !! field) as [old|] eqn:E.
  - apply Hrec. by left.
  - destruct (_ && _); [apply errors_kept_refl|]. apply Hrec. by right.
Qed.

Lemma appends_blank_others names url_type :
  appends_errors (UrlForm.blank_others names url_type).
Proof.
  induction names as [|n names IH]; [apply appends_ret|].
  cbn [UrlForm.blank_others]. apply appends_bind; [|done].
  case_bool_decide; [apply appends_cleaned_setitem|apply appends_ret].
Qed.

Lemma appends_resolve url_type content_object site :
  appends_errors (UrlForm.resolve url_type content_object site).
Proof.
  apply appends_bind; [apply reads_appends, reads_lookup|]. intros found.
  apply appends_bind; [|intros _; apply appends_cleaned_setitem].
  apply appends_bind; [apply appends_cleaned_get|]. intros url.
  destruct (negb (truthy url)); [|apply appends_ret].
  apply appends_bind; [apply appends_cleaned_get|]. intros g.
  apply appends_bind; [apply appends_cleaned_getitem|]. intros oid.
  apply appends_bind; [apply reads_appends, reads_Url_filter_exclude_exists|].
  intros [|]; [apply appends_add_error_list|apply appends_ret].
Qed.

Lemma appends_clean : appends_errors UrlForm.clean.
Proof.
  apply appends_bind; [apply appends_cleaned_get|]. intros url_type.
  apply appends_bind; [apply appends_cleaned_get|]. intros content_object.
  cbv zeta. apply appends_bind; [apply appends_blank_others|].
  intros _. destruct (UrlForm.is_basic url_type).
  - apply appends_bind; [intros w; apply errors_kept_refl|]. intros w.
    case_bool_decide; [|apply appends_ret].
    apply appends_bind; [apply appends_cleaned_getitem|]. intros v.
    destruct (negb (truthy v)); [apply appends_add_error_list|apply appends_ret].
  - destruct (truthy content_object); [|apply appends_add_error_list].
    apply appends_bind; [apply appends_cleaned_get|]. intros site.
    apply appends_try; [apply appends_resolve|].
    intros e h He. destruct e; try discriminate. injection He as <-.
    apply appends_bind; [apply appends_data_getitem|]. intros s.
    apply appends_add_error_list.
Qed.

Lemma appends_override_clean : appends_errors UrlOverrideForm.clean.
Proof.
  apply appends_bind; [apply appends_clean|]. intros _.
  apply appends_bind; [apply appends_cleaned_get|]. intros url.
  apply appends_bind; [apply appends_cleaned_get|]. intros site.
  destruct (truthy url); [|apply appends_ret].
  apply appends_bind.
  - destruct url; try apply appends_raise. apply appends_ret.
  - intros original. destruct (UrlOverrideForm.py_eq original site);
      [apply appends_raise|apply appends_ret].
Qed.

Lemma appends_link_clean : appends_errors HtmlLinkForm.clean.
Proof.
  apply appends_try.
  - apply appends_bind; [apply appends_cleaned_getitem|]. intros v.
    apply appends_bind; [apply reads_appends, reads_builtin_int|]. intros z.
    apply appends_bind; [|intros g; apply appends_cleaned_setitem].
    intros w. unfold UrlGrouper_get, get_world. mstep.
    destruct (bool_decide _); apply errors_kept_refl.
  - intros e h He. destruct e; try discriminate; injection He as <-;
      apply appends_add_error_list.
Qed.

Lemma appends_full_clean (clean : M unit) :
  appends_errors clean -> appends_errors (full_clean clean).
Proof.
  intros Hclean. apply appends_bind.
  - apply appends_try; [done|]. intros e h He.
    destruct e; try discriminate. injection He as <-. apply appends_add_error_list.
  - intros _ w. unfold _post_clean. rewrite construct_instance_run.
    intros k l H. exists []. rewrite app_nil_r. exact H.
Qed.

(** X6. No [clean] method of the three forms drops or rewrites an error
    that field cleaning has filed: whatever way the form-wide cleaning
    ends, every field that had errors has them still, in their order, with
    the new messages after them. *)
Theorem clean_keeps_filed_errors w k l :
  errors (self w) !! k = Some l ->
  (exists l', errors (self (world_after (full_clean UrlForm.clean) w)) !! k
              = Some (l ++ l')%list)
  /\ (exists l', errors (self (world_after (full_clean UrlOverrideForm.clean) w)) !! k
                 = Some (l ++ l')%list)
  /\ (exists l', errors (self (world_after (full_clean HtmlLinkForm.clean) w)) !! k
                 = Some (l ++ l')%list).
Proof.
  intros Hk.
  assert (Hafter : forall clean, appends_errors clean ->
            exists l', errors (self (world_after (full_clean clean) w)) !! k
                       = Some (l ++ l')%list).
  { intros clean Hclean. pose proof (appends_full_clean clean Hclean w) as Hw.
    unfold world_after. destruct (full_clean clean w); by apply Hw. }
  split; [|split]; apply Hafter.
  - apply appends_clean.
  - apply appends_override_clean.
  - apply appends_link_clean.
Qed.

Lemma clean_keeps_filed_errors_witness :
  exists l',
    errors (self (world_after (full_clean UrlForm.clean)
                    (mkWorld (mkForm "UrlForm" UrlForm.Meta_fields
                                {[ "url_type" := "phone" ]}
                                {[ "url_type" := VStr "phone"; "phone" := VStr "" ]}
                                {[ "site" := ["This field is required."] ]}
                                Sample.new_url) Sample.database))) !! "site"
    = Some (["This field is required."] ++ l')%list.
Proof.
  exact (proj1 (clean_keeps_filed_errors
                  (mkWorld (mkForm "UrlForm" UrlForm.Meta_fields
                              {[ "url_type" := "phone" ]}
                              {[ "url_type" := VStr "phone"; "phone" := VStr "" ]}
                              {[ "site" := ["This field is required."] ]}
                              Sample.new_url) Sample.database)
                  "site" ["This field is required."] eq_refl)).
Defined.

(** ** [UrlForm.save] *)

Lemma full_clean_db w w2 :
  full_clean UrlForm.clean w = Return tt w2 -> db w2 = db w.
Proof.
  unfold full_clean, _clean_form, try_except. mstep.
  pose proof (preserves_clean w) as Hp.
  destruct (UrlForm.clean w) as [[] w1|e w1]; destruct Hp as (Hdb & _).
  - rewrite construct_instance_run. by intros [= <-].
  - destruct e; try done.
    pose proof (preserves_add_error_list (fun _ => True) field [message] I w1) as Hq.
    destruct (add_error_list field [message] w1) as [[] w'|]; [|done].
    destruct Hq as (Hdb' & _). rewrite construct_instance_run.
    intros [= <-]. cbn. congruence.
Qed.

(** X7. A submission that form-wide cleaning leaves with an error is not
    saved: [save] raises [ValueError] before it touches the instance or
    creates a grouper, and the database is the one the submission found. *)
Theorem invalid_submission_is_not_saved w w2 commit :
  full_clean UrlForm.clean w = Return tt w2 ->
  errors (self w2) ≠ ∅ ->
  exists msg,
    UrlForm.save commit w2 = Raise (ValueError msg) w2
    /\ clean_and_save commit w = Raise (ValueError msg) w2
    /\ db w2 = db w.
Proof.
  intros Hfull Herr.
  assert (Hsave : UrlForm.save commit w2
                  = Raise (ValueError "The object could not be saved because the data didn't validate.") w2).
  { unfold UrlForm.save. mstep. rewrite cleaned_get_run. cbv beta iota.
    unfold super_save. by rewrite (bool_decide_false _ Herr). }
  eexists. split; [exact Hsave|]. split.
  - unfold clean_and_save. mstep. by rewrite Hfull.
  - by apply full_clean_db.
Qed.

Lemma invalid_submission_is_not_saved_witness :
  exists msg,
    clean_and_save true
      (Sample.url_form {[ "url_type" := VStr "7"; "content_object" := VStr "5";
                          "site" := VSite Sample.site1 ]})
    = Raise (ValueError msg)
        (world_after (full_clean UrlForm.clean)
           (Sample.url_form {[ "url_type" := VStr "7"; "content_object" := VStr "5";
                               "site" := VSite Sample.site1 ]})).
Proof.
  set (w := Sample.url_form {[ "url_type" := VStr "7"; "content_object" := VStr "5";
                               "site" := VSite Sample.site1 ]}).
  assert (Hfull : full_clean UrlForm.clean w
                  = Return tt (world_after (full_clean UrlForm.clean) w))
    by (vm_compute; reflexivity).
  assert (Herr : errors (self (world_after (full_clean UrlForm.clean) w)) ≠ ∅)
    by by_decide.
  destruct (invalid_submission_is_not_saved w _ true Hfull Herr) as (msg & _ & Hrun & _).
  exists msg. exact Hrun.
Defined.

Lemma grouped_other url d : klass url ≠ UrlModel -> grouped url d = (url, d).
Proof. intros H. unfold grouped. by rewrite (bool_decide_false _ H). Qed.

Lemma grouped_again url d :
  grouped (grouped url d).1 (grouped url d).2 = grouped url d.
Proof.
  destruct (bool_decide (klass url = UrlModel) && negb (truthy (getattr url "url_grouper")))
    eqn:Hnew.
  - assert (Hg : grouped url d
                 = (setattr url "url_grouper" (VGrouper (next_pk (url_groupers d))),
                    mkDB (content_types d) (url_table d) (override_table d)
                      (url_groupers d ++ [next_pk (url_groupers d)])%list))
      by (unfold grouped; by rewrite Hnew).
    rewrite Hg. cbn [fst snd]. apply grouped_kept.
    unfold getattr, setattr. cbn [attrs]. by rewrite lookup_insert_eq.
  - assert (Hg : grouped url d = (url, d)) by (unfold grouped; by rewrite Hnew).
    rewrite Hg. cbn [fst snd]. exact Hg.
Qed.

(** X8. [create_grouper] creates at most one grouper for an instance:
    called again on the instance it returned, it returns the same
    instance and leaves the database as it is. *)
Theorem create_grouper_once url w url1 w1 :
  UrlForm.create_grouper url w = Return url1 w1 ->
  UrlForm.create_grouper url1 w1 = Return url1 w1.
Proof.
  rewrite create_grouper_run. intros [= <- <-]. rewrite create_grouper_run.
  change (db (set_db ?d _)) with d. by rewrite grouped_again.
Qed.

Lemma create_grouper_once_witness :
  UrlForm.create_grouper
    (setattr Sample.new_url "url_grouper" (VGrouper 11))
    (world_after (UrlForm.create_grouper Sample.new_url) (Sample.url_form ∅))
  = Return (setattr Sample.new_url "url_grouper" (VGrouper 11))
      (world_after (UrlForm.create_grouper Sample.new_url) (Sample.url_form ∅)).
Proof.
  assert (Hrun : UrlForm.create_grouper Sample.new_url (Sample.url_form ∅)
                 = Return (setattr Sample.new_url "url_grouper" (VGrouper 11))
                     (world_after (UrlForm.create_grouper Sample.new_url)
                        (Sample.url_form ∅)))
    by (vm_compute; reflexivity).
  exact (create_grouper_once _ _ _ _ Hrun).
Defined.

(** A valid override submission is a valid base submission. *)
Lemma override_valid w w2 :
  full_clean UrlOverrideForm.clean w = Return tt w2 ->
  errors (self w2) = ∅ ->
  full_clean UrlForm.clean w = Return tt w2.
Proof.
  unfold full_clean, _clean_form, try_except, UrlOverrideForm.clean. mstep.
  destruct (UrlForm.clean w) as [[] w1|e w1]; [|done].
  rewrite !cleaned_get_run. cbv beta iota.
  destruct (truthy _); [|done].
  destruct (UrlOverrideForm.site_of _ w1) as [original w1'|e w1'] eqn:Hsite.
  - assert (w1' = w1) as ->.
    { unfold UrlOverrideForm.site_of in Hsite.
      destruct (default VNone _); try discriminate. by injection Hsite as _ <-. }
    destruct (UrlOverrideForm.py_eq _ _); [|done].
    unfold raise. cbv beta iota.
    destruct (add_error_list "site" [UrlOverrideForm.site_message] w1) as [[] w'|] eqn:Hadd;
      [|done].
    rewrite construct_instance_run. intros [= <-] Hvalid.
    by apply (add_error_nonempty "site" UrlOverrideForm.site_message) in Hadd.
  - unfold UrlOverrideForm.site_of, raise in Hsite.
    destruct (default VNone _); try discriminate; by injection Hsite as <- <-.
Qed.

(** X9. Saving a valid override submission creates no grouper: the
    grouper table and the [Url] table are as they were, and the returned
    [UrlOverride] holds under [url_grouper] what it held before. *)
Theorem save_override_creates_no_grouper w w2 commit :
  full_clean UrlOverrideForm.clean w = Return tt w2 ->
  errors (self w2) = ∅ ->
  klass (instance (self w2)) = UrlOverrideModel ->
  exists url w3,
    UrlForm.save commit w2 = Return url w3
    /\ url_groupers (db w3) = url_groupers (db w2)
    /\ url_table (db w3) = url_table (db w2)
    /\ attrs url !! "url_grouper" = attrs (instance (self w2)) !! "url_grouper".
Proof.
  intros Hfull Hvalid Hklass.
  apply override_valid in Hfull; [|done].
  rewrite save_run by eauto using valid_target. cbv zeta.
  rewrite grouped_other by (change (klass (linked ?i _)) with (klass i); by rewrite Hklass).
  eexists _, _. split; [reflexivity|]. cbn [db set_db].
  destruct commit; cbn [fst snd].
  - split; [apply stored_groupers|]. split.
    + unfold stored. cbn [snd]. rewrite bool_decide_false; [done|].
      change (klass (linked ?i _)) with (klass i). by rewrite Hklass.
    + rewrite stored_lookup by done. by apply linked_lookup.
  - split; [done|]. split; [done|]. by apply linked_lookup.
Qed.

Lemma save_override_creates_no_grouper_witness :
  exists url w3,
    UrlForm.save true
      (world_after (full_clean UrlOverrideForm.clean)
         (Sample.override_form {[ "url_type" := VStr "phone"; "phone" := VStr "555";
                                  "site" := VSite Sample.site2;
                                  "url" := VUrl 1 Sample.site1 ]})) = Return url w3
    /\ url_groupers (db w3) = [10%Z]
    /\ attrs url !! "url_grouper" = None.
Proof.
  set (w := Sample.override_form {[ "url_type" := VStr "phone"; "phone" := VStr "555";
                                    "site" := VSite Sample.site2;
                                    "url" := VUrl 1 Sample.site1 ]}).
  assert (Hfull : full_clean UrlOverrideForm.clean w
                  = Return tt (world_after (full_clean UrlOverrideForm.clean) w))
    by (vm_compute; reflexivity).
  destruct (save_override_creates_no_grouper w _ true Hfull eq_refl eq_refl)
    as (url & w3 & Hsave & Hg & _ & Hattr).
  exists url, w3. split; [exact Hsave|]. split; [exact Hg|exact Hattr].
Defined.

(** ** [save(commit=True)] and the uniqueness check *)

Lemma elem_of_upsert r table x :
  x ∈ upsert r table <-> (x ∈ table /\ row_pk x ≠ row_pk r) \/ x = r.
Proof.
  unfold upsert. rewrite elem_of_app, list_elem_of_filter, list_elem_of_singleton. tauto.
Qed.

Lemma column_setattr_ne i k k' v : k ≠ k' -> column (setattr i k v) k' = column i k'.
Proof. intros H. unfold column, getattr, setattr. cbn [attrs]. by rewrite lookup_insert_ne. Qed.

Lemma grouped_klass url d : klass (grouped url d).1 = klass url.
Proof. unfold grouped. by destruct (_ && _). Qed.

Lemma grouped_tables url d :
  url_table (grouped url d).2 = url_table d
  /\ override_table (grouped url d).2 = override_table d
  /\ content_types (grouped url d).2 = content_types d.
Proof. unfold grouped. by destruct (_ && _). Qed.

Lemma stored_url url d :
  klass url = UrlModel ->
  stored url d
  = (setattr url "id" (VInt (saved_pk url (url_table d))),
     mkDB (content_types d) (upsert (row_of (saved_pk url (url_table d)) url) (url_table d))
       (override_table d) (url_groupers d)).
Proof. intros H. unfold stored, saved_pk, row_of. by rewrite !(bool_decide_true _ H). Qed.

Lemma klass_constructed f : klass (constructed f) = klass (instance f).
Proof.
  unfold constructed. generalize (instance f) as i.
  induction Url_model_fields as [|n names IH]; intros i; [done|].
  cbn [foldl]. rewrite IH. destruct (cleaned_data f !! n); [|done].
  by destruct (bool_decide _).
Qed.

(** What [save(commit=True)] returns and writes for a valid [Url]. *)
Lemma save_commit_run w w2 :
  full_clean UrlForm.clean w = Return tt w2 ->
  errors (self w2) = ∅ ->
  klass (instance (self w2)) = UrlModel ->
  exists w3,
    let g := (grouped (linked (instance (self w2)) (target w2)) (db w2)).1 in
    let pk := saved_pk g (url_table (db w2)) in
    UrlForm.save true w2 = Return (setattr g "id" (VInt pk)) w3
    /\ url_table (db w3) = upsert (row_of pk g) (url_table (db w2))
    /\ override_table (db w3) = override_table (db w2).
Proof.
  intros Hfull Hvalid Hklass.
  rewrite save_run by eauto using valid_target. cbv zeta.
  destruct (grouped_tables (linked (instance (self w2)) (target w2)) (db w2))
    as (Hurl & Hover & _).
  rewrite stored_url by (by rewrite grouped_klass).
  rewrite Hurl, Hover. cbn [fst snd].
  eexists. split; [reflexivity|]. done.
Qed.

(** X10. [save(commit=True)] of a valid [Url] submission writes one row:
    the returned instance has a primary key, the [Url] table holds, under
    that key, the row of its content type, object and grouper and no other
    row; the rows under other keys and the [UrlOverride] table are as
    they were; an instance that had no key gets one that no row had. *)
Theorem save_writes_one_row w w2 :
  full_clean UrlForm.clean w = Return tt w2 ->
  errors (self w2) = ∅ ->
  klass (instance (self w2)) = UrlModel ->
  exists url w3 pk,
    UrlForm.save true w2 = Return url w3
    /\ attrs url !! "id" = Some (VInt pk)
    /\ row_of pk url ∈ url_table (db w3)
    /\ (forall r, r ∈ url_table (db w3) -> row_pk r = pk -> r = row_of pk url)
    /\ (forall r, row_pk r ≠ pk -> r ∈ url_table (db w3) <-> r ∈ url_table (db w2))
    /\ override_table (db w3) = override_table (db w2)
    /\ ((forall z, attrs (instance (self w2)) !! "id" ≠ Some (VInt z)) ->
        forall r, r ∈ url_table (db w2) -> row_pk r ≠ pk).
Proof.
  intros Hfull Hvalid Hklass.
  destruct (save_commit_run w w2 Hfull Hvalid Hklass) as (w3 & Hsave & Htable & Hover).
  cbv zeta in Hsave, Htable.
  set (g := (grouped (linked (instance (self w2)) (target w2)) (db w2)).1) in *.
  set (pk := saved_pk g (url_table (db w2))) in *.
  assert (Hrow : row_of pk (setattr g "id" (VInt pk)) = row_of pk g).
  { unfold row_of. by rewrite !column_setattr_ne. }
  exists (setattr g "id" (VInt pk)), w3, pk. split; [done|].
  rewrite Hrow, Htable. split; [|split; [|split; [|split; [|split]]]].
  - cbn [attrs setattr]. by rewrite lookup_insert_eq.
  - apply elem_of_upsert. by right.
  - intros r Hr Hpk. apply elem_of_upsert in Hr as [[_ Hne]|Hr]; [|done].
    by destruct Hne.
  - intros r Hne. rewrite elem_of_upsert. split.
    + intros [[Hr _]| ->]; [done|]. by destruct Hne.
    + intros Hr. by left.
  - done.
  - intros Hnew r Hr Hpk.
    assert (Hid : attrs g !! "id" = attrs (instance (self w2)) !! "id").
    { unfold g. rewrite grouped_lookup by done. by apply linked_lookup. }
    assert (Hnext : pk = next_pk (row_pk <$> url_table (db w2))).
    { unfold pk, saved_pk, getattr. rewrite Hid.
      destruct (attrs (instance (self w2)) !! "id") as [[]|] eqn:E; try done.
      by destruct (Hnew z). }
    apply (next_pk_fresh (row_pk <$> url_table (db w2))).
    rewrite <- Hnext, <- Hpk. by apply list_elem_of_fmap_2.
Qed.

Lemma save_writes_one_row_witness :
  exists url w3 pk,
    UrlForm.save true
      (world_after (full_clean UrlForm.clean)
         (Sample.url_form {[ "url_type" := VStr "7"; "content_object" := VStr "6";
                             "site" := VSite Sample.site2 ]})) = Return url w3
    /\ attrs url !! "id" = Some (VInt pk)
    /\ row_of pk url ∈ url_table (db w3)
    /\ mkUrlRow 1 (Some 7%Z) (Some 5%Z) (Some 10%Z) ∈ url_table (db w3).
Proof.
  set (w := Sample.url_form {[ "url_type" := VStr "7"; "content_object" := VStr "6";
                               "site" := VSite Sample.site2 ]}).
  assert (Hfull : full_clean UrlForm.clean w
                  = Return tt (world_after (full_clean UrlForm.clean) w))
    by (vm_compute; reflexivity).
  destruct (save_writes_one_row w _ Hfull eq_refl eq_refl)
    as (url & w3 & pk & Hsave & Hid & Hin & _ & Hothers & _ & Hfresh).
  exists url, w3, pk. split; [exact Hsave|]. split; [exact Hid|]. split; [exact Hin|].
  assert (Hold : mkUrlRow 1 (Some 7%Z) (Some 5%Z) (Some 10%Z)
                 ∈ url_table (db (world_after (full_clean UrlForm.clean) w)))
    by by_decide.
  apply Hothers; [|exact Hold].
  apply (Hfresh (fun z => ltac:(discriminate)) _ Hold).
Defined.

(** X11. Once a valid [Url] submission for an object has been saved, a
    later submission for the same object that is no override and names
    another grouper, or none, is refused: [clean] files "Url with this
    object already exists" under [content_object]. *)
Theorem saved_object_is_taken w t k model c z site g s url w3 w' site' g' :
  generic_submission w t k model c z site g ->
  objects model !! z = Some s ->
  in_scope model site z s ->
  klass (instance (self w)) = UrlModel ->
  clean_and_save true w = Return url w3 ->
  generic_submission w' t k model c z site' g' ->
  in_scope model site' z s ->
  db w' = db w3 ->
  truthy (default VNone (cleaned_data (self w') !! "url")) = false ->
  column url "url_grouper" ≠ g' ->
  exists w'',
    UrlForm.clean w' = Return tt w''
    /\ errors (self w'') !! "content_object"
       = Some (default [] (errors (self w') !! "content_object")
               ++ ["Url with this object already exists"])%list.
Proof.
  intros Hsub Hrow Hscope Hklass Hrun Hsub' Hscope' Hdb Hurl Hgrouper.
  unfold clean_and_save in Hrun. revert Hrun. mstep.
  destruct (full_clean UrlForm.clean w) as [[] w2|] eqn:Hfull; [|done].
  intros Hsave. pose proof (save_valid _ _ _ _ Hsave) as Hvalid.
  destruct (valid_shape _ _ Hfull Hvalid) as (w1 & Hw2 & _ & _ & Hshape).
  pose proof Hsub as [Hform Ht Hk Hmodel Hc Hz Hsite Hsite_type Hg].
  assert (Hst : submitted_type w = VStr t) by (unfold submitted_type; by rewrite Ht).
  rewrite Hst, (int_not_basic _ _ Hk), Hc in Hshape. cbn [default from_option id] in Hshape.
  rewrite Hsite in Hshape.
  destruct Hshape as (found & Hlookup & Hw1 & Htarget).
  rewrite (scoped_lookup model site z s w Hsite_type Hrow Hscope k t c Hk Hmodel Hz)
    in Hlookup.
  injection Hlookup as <-. cbn [snd] in Htarget, Hw1.
  assert (Hklass2 : klass (instance (self w2)) = UrlModel).
  { rewrite Hw2. change (instance (self (set_instance ?i _))) with i.
    rewrite klass_constructed, Hw1. exact Hklass. }
  destruct (save_commit_run w w2 Hfull Hvalid Hklass2) as (w3' & Hsave' & Htable & _).
  cbv zeta in Hsave', Htable. rewrite Hsave' in Hsave. injection Hsave as <- <-.
  set (g1 := (grouped (linked (instance (self w2)) (target w2)) (db w2)).1) in *.
  set (pk := saved_pk g1 (url_table (db w2))) in *.
  assert (Hattr : forall n, n ≠ "url_grouper" ->
                    attrs g1 !! n = attrs (linked (instance (self w2)) (target w2)) !! n).
  { intros n Hn. unfold g1. by rewrite grouped_lookup. }
  destruct (linked_reference (instance (self w2)) (target w2)) as (_ & Hct & Hoid).
  assert (Hconflict : conflicts k z g' (row_of pk g1)).
  { unfold conflicts, row_of, column, getattr. cbn [row_content_type row_object_id row_url_grouper].
    rewrite !Hattr by done. rewrite Hct, Hoid, Htarget.
    cbn [default from_option id obj_ct obj_pk].
    split; [done|]. split; [done|].
    intros Heq. apply Hgrouper. rewrite column_setattr_ne by done.
    exact Heq. }
  rewrite (clean_found w' t k model c z site' g' s Hsub' Hrow Hscope').
  unfold after_check. rewrite Hurl.
  assert (Hex : existsb (kept k (Some z) g') (url_table (db w')) = true).
  { apply exists_conflict. exists (row_of pk g1). split; [|done].
    rewrite Hdb, Htable. apply elem_of_upsert. by right. }
  rewrite Hex. eexists. split; [reflexivity|].
  cbn [self errors set_cleaned_data]. by rewrite with_error_errors.
Qed.

Lemma saved_object_is_taken_witness :
  exists url w3 w'',
    clean_and_save true
      (Sample.url_form {[ "url_type" := VStr "7"; "content_object" := VStr "6";
                          "site" := VSite Sample.site2 ]}) = Return url w3
    /\ UrlForm.clean
         (mkWorld
            (self (Sample.url_form {[ "url_type" := VStr "7";
                                      "content_object" := VStr "6";
                                      "site" := VSite Sample.site2 ]}))
            (db w3))
       = Return tt w''
    /\ errors (self w'') !! "content_object"
       = Some ["Url with this object already exists"].
Proof.
  set (w := Sample.url_form {[ "url_type" := VStr "7"; "content_object" := VStr "6";
                               "site" := VSite Sample.site2 ]}).
  destruct (clean_and_save true w) as [url w3|e w3] eqn:Hrun;
    [|vm_compute in Hrun; discriminate].
  assert (Hsub : generic_submission w "7" 7 Sample.article "6" 6
                   (VSite Sample.site2) None).
  { split; try reflexivity; try by_decide. right. by eexists. }
  assert (Hscope : in_scope Sample.article (VSite Sample.site2) 6 (Some 2%Z))
    by reflexivity.
  assert (Hobj : objects Sample.article !! 6%Z = Some (Some 2%Z)) by reflexivity.
  assert (Hklass : klass (instance (self w)) = UrlModel) by reflexivity.
  assert (Hurl : truthy (default VNone (cleaned_data (self w) !! "url")) = false)
    by reflexivity.
  assert (Hsaved : content_types (db w3) !! 7%Z = Some Sample.article
                   /\ column url "url_grouper" ≠ None).
  { pose proof Hrun as Hval. vm_compute in Hval. injection Hval as <- <-.
    split; [vm_compute; reflexivity|vm_compute; discriminate]. }
  destruct Hsaved as [Htypes Hgrouper].
  assert (Hsub' : generic_submission (mkWorld (self w) (db w3)) "7" 7 Sample.article
                    "6" 6 (VSite Sample.site2) None).
  { destruct Hsub. by split. }
  destruct (saved_object_is_taken w "7" 7 Sample.article "6" 6 (VSite Sample.site2) None
              (Some 2%Z) url w3 (mkWorld (self w) (db w3)) (VSite Sample.site2) None
              Hsub Hobj Hscope Hklass Hrun Hsub' Hscope eq_refl Hurl Hgrouper)
    as (w'' & Hclean & Herr).
  exists url, w3, w''. split; [reflexivity|]. split; [exact Hclean|exact Herr].
Defined.

(** ** [clean_anchor] *)

Lemma anchor_hook_run w s :
  "anchor" ∈ fields (self w) ->
  cleaned_data (self w) !! "anchor" = Some (VStr s) ->
  run_clean_hook "anchor" clean_anchor w
  = Return tt
      (if starts_with_hash s
       then set_errors (<["anchor" := (default [] (errors (self w) !! "anchor")
                                       ++ [anchor_message])%list]> (errors (self w))) w
       else w).
Proof.
  intros Hfield Hc.
  unfold run_clean_hook, try_except, clean_anchor. mstep.
  rewrite cleaned_get_run, Hc. cbn [default from_option id]. unfold anchor_has_hash.
  destruct s as [|c s].
  - cbn. unfold cleaned_setitem, modify. rewrite insert_id by done. by destruct w as [[] ?].
  - cbn [truthy String.eqb negb starts_with_hash]. unfold ret. cbv beta iota.
    destruct (Ascii.eqb c "#").
    + rewrite add_error_run by done. cbv beta iota.
      unfold cleaned_setitem, modify, with_error.
      change (cleaned_data (self (set_cleaned_data ?d _))) with d.
      rewrite insert_delete_id by done. by destruct w as [[] ?].
    + unfold cleaned_setitem, modify. rewrite insert_id by done. by destruct w as [[] ?].
Qed.

(** X12. After field cleaning has put the submitted anchor in the
    cleaned data, the [clean_anchor] step of [_clean_fields] files 'Do not
    include a preceding "#" symbol.' under [anchor] exactly when the
    anchor begins with "#".  Either way the anchor is in the cleaned data
    afterwards, as it was submitted: [add_error] removes it, and storing
    the value that [clean_anchor] returns puts it back.  Nothing else
    changes. *)
Theorem clean_anchor_rejects_hash w s :
  "anchor" ∈ fields (self w) ->
  cleaned_data (self w) !! "anchor" = Some (VStr s) ->
  exists w',
    run_clean_hook "anchor" clean_anchor w = Return tt w'
    /\ cleaned_data (self w') = cleaned_data (self w)
    /\ errors (self w')
       = (if starts_with_hash s
          then <["anchor" := (default [] (errors (self w) !! "anchor")
                              ++ [anchor_message])%list]> (errors (self w))
          else errors (self w))
    /\ db w' = db w
    /\ instance (self w') = instance (self w).
Proof.
  intros Hfield Hc. rewrite (anchor_hook_run w s Hfield Hc).
  eexists. split; [reflexivity|]. by destruct (starts_with_hash s).
Qed.

Lemma clean_anchor_rejects_hash_witness :
  (exists w',
     run_clean_hook "anchor" clean_anchor
       (Sample.url_form {[ "url_type" := VStr "anchor"; "anchor" := VStr "#top" ]})
     = Return tt w'
     /\ cleaned_data (self w') !! "anchor" = Some (VStr "#top")
     /\ errors (self w') = {[ "anchor" := [anchor_message] ]})
  /\ (exists w',
        run_clean_hook "anchor" clean_anchor
          (Sample.url_form {[ "url_type" := VStr "anchor"; "anchor" := VStr "top" ]})
        = Return tt w'
        /\ errors (self w') = ∅).
Proof.
  assert (Hfield : forall cd, "anchor" ∈ fields (self (Sample.url_form cd)))
    by (intros cd; by_decide).
  split.
  - set (w := Sample.url_form _).
    assert (Hcleaned : cleaned_data (self w) !! "anchor" = Some (VStr "#top"))
      by (vm_compute; reflexivity).
    destruct (clean_anchor_rejects_hash w "#top" (Hfield _) Hcleaned)
      as (w' & Hrun & Hcd & Herr & _).
    exists w'. split; [exact Hrun|]. split; [by rewrite Hcd|exact Herr].
  - set (w := Sample.url_form _).
    assert (Hcleaned : cleaned_data (self w) !! "anchor" = Some (VStr "top"))
      by (vm_compute; reflexivity).
    destruct (clean_anchor_rejects_hash w "top" (Hfield _) Hcleaned)
      as (w' & Hrun & _ & Herr & _).
    exists w'. split; [exact Hrun|exact Herr].
Defined.

Lemma full_clean_db_after w : db (world_after (full_clean UrlForm.clean) w) = db w.
Proof.
  unfold world_after, full_clean, _clean_form, try_except. mstep.
  pose proof (preserves_clean w) as Hp.
  destruct (UrlForm.clean w) as [[] w1|e w1]; destruct Hp as (Hdb & _).
  - by rewrite construct_instance_run.
  - assert (Hadd : forall field msgs,
               db (match match add_error_list field msgs w1 with
                         | Return _ w' => _post_clean w'
                         | Raise e0 w' => Raise e0 w'
                         end with
                   | Return _ w' => w'
                   | Raise _ w' => w'
                   end) = db w).
    { intros field msgs.
      pose proof (preserves_add_error_list (fun _ => True) field msgs I w1) as Hq.
      destruct (add_error_list field msgs w1) as [[] w'|e' w'];
        destruct Hq as (Hdb' & _); [rewrite construct_instance_run; cbn|]; congruence. }
    destruct e; try done; apply Hadd.
Qed.

(** X13. An anchor that begins with "#" keeps the submission from being
    saved whatever [url_type] is selected, even one for which the anchor
    is discarded: the message of [clean_anchor] is still among the errors
    of [anchor] when form-wide cleaning is over, so [save] raises, and the
    database is as the submission found it. *)
Theorem hash_anchor_blocks_save w s commit :
  is_UrlForm w ->
  cleaned_data (self w) !! "anchor" = Some (VStr (String "#" s)) ->
  (exists l l',
     errors (self (world_after (run_clean_hook "anchor" clean_anchor;;
                                full_clean UrlForm.clean) w)) !! "anchor"
     = Some (l ++ [anchor_message] ++ l')%list)
  /\ exists e w', submit_anchor commit w = Raise e w' /\ db w' = db w.
Proof.
  intros Hform Hc.
  assert (Hfield : "anchor" ∈ fields (self w)) by (apply Hform; by_decide).
  pose proof (anchor_hook_run w _ Hfield Hc) as Hhook.
  change (starts_with_hash (String "#" s)) with true in Hhook. cbv iota in Hhook.
  set (w0 := set_errors _ w) in Hhook.
  assert (Herr0 : errors (self w0) !! "anchor"
                  = Some (default [] (errors (self w) !! "anchor") ++ [anchor_message])%list).
  { unfold w0. cbn [self errors set_errors]. by rewrite lookup_insert_eq. }
  pose proof (appends_full_clean _ appends_clean w0) as Hkept.
  pose proof (full_clean_db_after w0) as Hdb. unfold world_after in Hdb.
  split.
  - unfold world_after. mstep. rewrite Hhook. cbv beta iota.
    destruct (full_clean UrlForm.clean w0) as [[] w2|e w2];
      destruct (Hkept _ _ Herr0) as [l' Hl'];
      exists (default [] (errors (self w) !! "anchor")), l';
      by rewrite Hl', <- app_assoc.
  - unfold submit_anchor, clean_and_save. mstep. rewrite Hhook.
    destruct (full_clean UrlForm.clean w0) as [[] w2|e w2].
    + destruct (Hkept _ _ Herr0) as [l' Hl'].
      assert (Hnonempty : errors (self w2) ≠ ∅).
      { intros Hempty. rewrite Hempty in Hl'. by rewrite lookup_empty in Hl'. }
      unfold UrlForm.save. mstep. rewrite cleaned_get_run. cbv beta iota.
      unfold super_save. rewrite (bool_decide_false _ Hnonempty).
      eexists _, _. split; [reflexivity|]. exact Hdb.
    + eexists _, _. split; [reflexivity|]. exact Hdb.
Qed.

Lemma hash_anchor_blocks_save_witness :
  exists e w',
    submit_anchor true
      (Sample.url_form {[ "url_type" := VStr "phone"; "phone" := VStr "555";
                          "anchor" := VStr "#top";
                          "site" := VSite Sample.site1 ]}) = Raise e w'
    /\ db w' = Sample.database.
Proof.
  assert (Hform : is_UrlForm
                    (Sample.url_form {[ "url_type" := VStr "phone"; "phone" := VStr "555";
                                        "anchor" := VStr "#top";
                                        "site" := VSite Sample.site1 ]})) by by_decide.
  exact (proj2 (hash_anchor_blocks_save _ "top" true Hform eq_refl)).
Defined.

(** ** [UrlForm.__init__] *)

Lemma initial_from_basic_first before t after i fs ft :
  fs !! "url_type" = Some ft ->
  (forall n, n ∈ before -> truthy (getattr i n) = false) ->
  truthy (getattr i t) = true ->
  initial_from_basic (before ++ t :: after) i fs
  = inr (<["url_type" := set_initial (VStr t) ft]> fs).
Proof.
  intros Hft Hbefore Ht. induction before as [|n before IH]; cbn [app initial_from_basic].
  - rewrite Ht. unfold update_field. by rewrite Hft.
  - rewrite Hbefore by (by left). apply IH. intros m Hm. apply Hbefore. by right.
Qed.

Lemma initial_from_basic_none names i fs :
  (forall n, n ∈ names -> truthy (getattr i n) = false) ->
  initial_from_basic names i fs = inr fs.
Proof.
  intros Hall. induction names as [|n names IH]; [done|].
  cbn [initial_from_basic]. rewrite Hall by (by left).
  apply IH. intros m Hm. apply Hall. by right.
Qed.

(** The fields after the choices are set, and what is left to run. *)
Lemma UrlForm_init_unfold capitalize supported i fs ft :
  fs !! "url_type" = Some ft ->
  exists fs1 ft1,
    fs1 !! "url_type" = Some ft1
    /\ initial ft1 = initial ft
    /\ choices ft1
       = (((fun model => (VInt model.1, capitalize model.2)) <$> supported)
          ++ ((fun choice => (VStr choice.1, choice.2)) <$> BASIC_TYPE_CHOICES))%list
    /\ (forall n, n ≠ "url_type" -> n ≠ "url_grouper" -> fs1 !! n = fs !! n)
    /\ fs1 !! "url_grouper"
       = (fun f => set_widget "HiddenInput" (set_required false f)) <$> fs !! "url_grouper"
    /\ UrlForm_init capitalize supported i fs
       = if truthy (getattr i "content_type") then
           match update_field "url_type" (set_initial (getattr i "content_type")) fs1 with
           | inl e => inl e
           | inr fs2 =>
               update_field "content_object" (set_initial (getattr i "object_id")) fs2
           end
         else initial_from_basic basic_type_names i fs1.
Proof.
  intros Hft. unfold UrlForm_init. cbv zeta.
  set (fs0 := match fs !! "url_grouper" with
              | Some f => <["url_grouper" := set_widget "HiddenInput" (set_required false f)]> fs
              | None => fs
              end).
  set (ch := (_ ++ _)%list).
  assert (H0 : fs0 !! "url_type" = Some ft).
  { unfold fs0. destruct (fs !! "url_grouper"); [|done]. by rewrite lookup_insert_ne. }
  assert (Hg : fs0 !! "url_grouper"
               = (fun f => set_widget "HiddenInput" (set_required false f))
                   <$> fs !! "url_grouper").
  { unfold fs0. destruct (fs !! "url_grouper") as [f|] eqn:E; cbn.
    - by rewrite lookup_insert_eq.
    - done. }
  assert (Hother : forall n, n ≠ "url_grouper" -> fs0 !! n = fs !! n).
  { intros n Hn. unfold fs0. destruct (fs !! "url_grouper"); [|done].
    by rewrite lookup_insert_ne. }
  unfold update_field at 1. rewrite H0.
  exists (<["url_type" := set_choices ch ft]> fs0), (set_choices ch ft).
  split; [by rewrite lookup_insert_eq|]. split; [done|]. split; [done|].
  split; [|split; [|done]].
  - intros n Hn Hn'. rewrite lookup_insert_ne by done. by apply Hother.
  - by rewrite lookup_insert_ne.
Qed.

(** X14. [UrlForm.__init__] on a form that has the fields [url_type] and
    [content_object] returns; [url_type] then offers the supported models
    followed by the basic kinds.  For an instance with a content type,
    the initial [url_type] is its id and the initial [content_object] the
    id of the object.  Otherwise the initial [url_type] is the first basic
    kind, in the order of [BASIC_TYPE_CHOICES], of which the instance
    holds a value, [content_object] is left alone, and with no value at
    all the declared initial stays. *)
Theorem init_resolves_initial_type capitalize supported i fs ft fc :
  fs !! "url_type" = Some ft ->
  fs !! "content_object" = Some fc ->
  exists fs' ft',
    UrlForm_init capitalize supported i fs = inr fs'
    /\ fs' !! "url_type" = Some ft'
    /\ choices ft'
       = (((fun model => (VInt model.1, capitalize model.2)) <$> supported)
          ++ ((fun choice => (VStr choice.1, choice.2)) <$> BASIC_TYPE_CHOICES))%list
    /\ (truthy (getattr i "content_type") = true ->
        initial ft' = getattr i "content_type"
        /\ fs' !! "content_object" = Some (set_initial (getattr i "object_id") fc))
    /\ (truthy (getattr i "content_type") = false ->
        fs' !! "content_object" = Some fc
        /\ (forall before t after,
              basic_type_names = (before ++ t :: after)%list ->
              (forall n, n ∈ before -> truthy (getattr i n) = false) ->
              truthy (getattr i t) = true ->
              initial ft' = VStr t)
        /\ ((forall n, n ∈ basic_type_names -> truthy (getattr i n) = false) ->
            initial ft' = initial ft)).
Proof.
  intros Hft Hfc.
  destruct (UrlForm_init_unfold capitalize supported i fs ft Hft)
    as (fs1 & ft1 & H1 & Hinit & Hch & Hother & _ & ->).
  assert (Hc1 : fs1 !! "content_object" = Some fc) by (by rewrite Hother).
  destruct (truthy (getattr i "content_type")) eqn:Hct.
  - unfold update_field. rewrite H1. rewrite lookup_insert_ne by done. rewrite Hc1.
    eexists _, _. split; [reflexivity|].
    split; [by rewrite lookup_insert_ne, lookup_insert_eq|].
    split; [done|]. split; [|done]. intros _. split; [done|].
    by rewrite lookup_insert_eq.
  - assert (Hdec : (forall n, n ∈ basic_type_names -> truthy (getattr i n) = false)
                   \/ ~ (forall n, n ∈ basic_type_names -> truthy (getattr i n) = false)).
    { destruct (decide (Forall (fun n => truthy (getattr i n) = false) basic_type_names))
        as [Hall|Hnot].
      - left. intros n Hn. exact (proj1 (Forall_forall _ _) Hall n Hn).
      - right. intros Hall. apply Hnot. by apply Forall_forall. }
    destruct Hdec as [Hnone|Hsome].
    + rewrite initial_from_basic_none by done.
      exists fs1, ft1. split; [done|]. split; [done|]. split; [done|].
      split; [done|]. intros _. split; [done|]. split; [|done].
      intros before t after Hsplit _ Ht. rewrite Hnone in Ht; [done|].
      rewrite Hsplit. apply elem_of_app. right. by left.
    + assert (Hfirst : exists before t after,
                 basic_type_names = (before ++ t :: after)%list
                 /\ (forall n, n ∈ before -> truthy (getattr i n) = false)
                 /\ truthy (getattr i t) = true).
      { clear -Hsome. induction basic_type_names as [|n names IH].
        - destruct Hsome. intros n Hn. by apply elem_of_nil in Hn.
        - destruct (truthy (getattr i n)) eqn:Hn.
          + exists [], n, names. split; [done|]. split; [|done].
            intros m Hm. by apply elem_of_nil in Hm.
          + destruct IH as (before & t & after & -> & Hbefore & Ht).
            * intros Hall. apply Hsome. intros m Hm.
              apply elem_of_cons in Hm as [->|Hm]; [done|by apply Hall].
            * exists (n :: before), t, after. split; [done|]. split; [|done].
              intros m Hm. apply elem_of_cons in Hm as [->|Hm]; [done|by apply Hbefore]. }
      destruct Hfirst as (before & t & after & Hsplit & Hbefore & Ht).
      rewrite Hsplit, (initial_from_basic_first before t after i fs1 ft1) by done.
      eexists _, _. split; [reflexivity|]. split; [by rewrite lookup_insert_eq|].
      split; [done|]. split; [done|]. intros _.
      split; [by rewrite lookup_insert_ne|]. split.
      * intros before' t' after' Hsplit' Hbefore' Ht'. cbn [initial set_initial].
        f_equal.
        clear -Hsplit' Hbefore Ht Hbefore' Ht'.
        revert before' Hsplit' Hbefore'.
        induction before as [|n before IH]; intros [|n' before'] Hsplit' Hbefore';
          cbn [app] in Hsplit'.
        -- by injection Hsplit' as ->.
        -- injection Hsplit' as -> _. rewrite Hbefore' in Ht; [done|by left].
        -- injection Hsplit' as -> _. rewrite Hbefore in Ht'; [done|by left].
        -- injection Hsplit' as -> Hrest.
           apply (IH (fun m Hm => Hbefore m (list_elem_of_further _ _ _ Hm)) before' Hrest).
           intros m Hm. apply Hbefore'. by right.
      * intros Hnone. rewrite Hnone in Ht; [done|]. apply elem_of_app. right. by left.
Qed.

Lemma init_resolves_initial_type_witness :
  exists fs' ft',
    UrlForm_init SampleFields.capitalize SampleFields.supported
      (mkInstance UrlModel {[ "anchor" := VStr ""; "mailto" := VStr "a@example.com";
                              "phone" := VStr "555" ]})
      SampleFields.url_fields = inr fs'
    /\ fs' !! "url_type" = Some ft'
    /\ initial ft' = VStr "mailto".
Proof.
  destruct (init_resolves_initial_type SampleFields.capitalize SampleFields.supported
              (mkInstance UrlModel {[ "anchor" := VStr ""; "mailto" := VStr "a@example.com";
                                      "phone" := VStr "555" ]})
              SampleFields.url_fields _ _ eq_refl eq_refl)
    as (fs' & ft' & Hrun & Hft & _ & _ & Hbasic).
  exists fs', ft'. split; [exact Hrun|]. split; [exact Hft|].
  destruct (Hbasic eq_refl) as (_ & Hfirst & _).
  apply (Hfirst ["manual_url"; "relative_path"; "anchor"] "mailto" ["phone"]);
    [reflexivity| |reflexivity].
  intros n Hn. rewrite !elem_of_cons, elem_of_nil in Hn.
  by destruct Hn as [->|[->|[->|[]]]].
Defined.

(** ** From [save] back to [__init__] *)

(** The value sources of the instance that a submission leaves. *)
Lemma saved_value_sources w commit url w3 :
  is_UrlForm w ->
  clean_and_save commit w = Return url w3 ->
  if UrlForm.is_basic (submitted_type w) then
    (forall n, n ∈ basic_type_names -> VStr n ≠ submitted_type w ->
               attrs url !! n = Some (VStr ""))
    /\ (exists v, attrs url !! UrlForm.name_of (submitted_type w) = Some v
                  /\ truthy v = true)
    /\ attrs url !! "content_object" = Some VNone
    /\ attrs url !! "content_type" = Some VNone
    /\ attrs url !! "object_id" = Some VNone
  else
    (forall n, n ∈ basic_type_names -> attrs url !! n = Some (VStr ""))
    /\ exists found,
         UrlForm.lookup (submitted_type w)
           (default VNone (cleaned_data (self w) !! "content_object"))
           (default VNone (cleaned_data (self w) !! "site")) w = Return found w
         /\ attrs url !! "content_object" = Some (VObj found.2)
         /\ attrs url !! "content_type" = Some (VInt (obj_ct found.2))
         /\ attrs url !! "object_id" = Some (VInt (obj_pk found.2)).
Proof.
  intros Hform. unfold clean_and_save. mstep.
  destruct (full_clean UrlForm.clean w) as [[] w2|] eqn:Hfull; [|done].
  intros Hsave. pose proof (save_valid _ _ _ _ Hsave) as Hvalid.
  destruct (valid_shape _ _ Hfull Hvalid) as (w1 & Hw2 & Htype & Hf & Hshape).
  assert (Hcolumn : forall n v, n ∈ basic_type_names ->
                                cleaned_data (self w1) !! n = Some v ->
                                attrs (instance (self w2)) !! n = Some v).
  { intros n v Hn Hv. rewrite Hw2.
    change (instance (self (set_instance ?i _))) with i.
    apply constructed_lookup; [by apply basic_is_column| |done].
    rewrite Hf. by apply Hform, basic_in_Meta. }
  destruct (UrlForm.is_basic (submitted_type w)) eqn:Hbasic.
  - destruct Hshape as (-> & Htarget & v & Hv & Htruthy).
    rewrite save_run in Hsave by (done || (left; done)). cbv zeta in Hsave.
    injection Hsave as <- _. rewrite Htarget.
    assert (Hname : UrlForm.name_of (submitted_type w) ∈ basic_type_names).
    { destruct (submitted_type w); try discriminate. by apply bool_decide_eq_true_1 in Hbasic. }
    repeat split.
    + intros n Hn Hne. destruct (basic_not_reserved n Hn) as (?&?&?&?&?).
      rewrite saved_lookup, linked_lookup by done.
      apply Hcolumn; [done|]. rewrite blanked_lookup. by rewrite bool_decide_true.
    + exists v. split; [|done]. destruct (basic_not_reserved _ Hname) as (?&?&?&?&?).
      rewrite saved_lookup, linked_lookup by done.
      apply Hcolumn; [done|]. rewrite blanked_lookup, bool_decide_false; [done|].
      intros [_ Hne]. apply Hne. by destruct (submitted_type w).
    + rewrite saved_lookup by done. apply linked_reference.
    + rewrite saved_lookup by done. apply (linked_reference _ VNone).
    + rewrite saved_lookup by done. apply (linked_reference _ VNone).
  - destruct Hshape as (found & Hlookup & -> & Htarget).
    rewrite save_run in Hsave by (done || (right; by eexists)). cbv zeta in Hsave.
    injection Hsave as <- _. rewrite Htarget. split.
    + intros n Hn. destruct (basic_not_reserved n Hn) as (?&?&?&?&?).
      rewrite saved_lookup, linked_lookup by done.
      apply Hcolumn; [done|]. cbn. rewrite lookup_insert_ne by done.
      rewrite lookup_blank, bool_decide_true; [done|].
      split; [done|]. by apply not_basic_ne.
    + exists found. split; [done|].
      rewrite !saved_lookup by done. apply (linked_reference _ (VObj found.2)).
Qed.

Lemma basic_names_NoDup : NoDup basic_type_names.
Proof. by_decide. Qed.

(** X15. Editing what was saved starts from the kind that was saved.
    [UrlForm.__init__] on the instance that a successful clean-and-save
    returned makes the initial [url_type] the basic kind that was
    submitted; for a content object it makes the initial [url_type] the
    id of the content type, as a number, and the initial [content_object]
    the id of the object found, provided the id of the content type is
    not 0. *)
Theorem init_after_save_restores_type w commit url w3 capitalize supported fs ft fc :
  is_UrlForm w ->
  clean_and_save commit w = Return url w3 ->
  fs !! "url_type" = Some ft ->
  fs !! "content_object" = Some fc ->
  exists fs' ft',
    UrlForm_init capitalize supported url fs = inr fs'
    /\ fs' !! "url_type" = Some ft'
    /\ if UrlForm.is_basic (submitted_type w) then
         initial ft' = submitted_type w
         /\ fs' !! "content_object" = Some fc
       else
         exists found,
           UrlForm.lookup (submitted_type w)
             (default VNone (cleaned_data (self w) !! "content_object"))
             (default VNone (cleaned_data (self w) !! "site")) w = Return found w
           /\ (obj_ct found.2 ≠ 0 ->
               initial ft' = VInt (obj_ct found.2)
               /\ fs' !! "content_object"
                  = Some (set_initial (VInt (obj_pk found.2)) fc)).
Proof.
  intros Hform Hrun Hft Hfc.
  pose proof (saved_value_sources w commit url w3 Hform Hrun) as Hsaved.
  destruct (UrlForm_init_unfold capitalize supported url fs ft Hft)
    as (fs1 & ft1 & H1 & _ & _ & Hother & _ & ->).
  assert (Hc1 : fs1 !! "content_object" = Some fc) by (by rewrite Hother).
  destruct (UrlForm.is_basic (submitted_type w)) eqn:Hkind.
  - destruct Hsaved as (Hothers & (v & Hv & Htruthy) & _ & Hct & _).
    assert (Hnone : truthy (getattr url "content_type") = false).
    { unfold getattr. by rewrite Hct. }
    rewrite Hnone.
    destruct (submitted_type w) as [|t| | | | |] eqn:Hst; try discriminate.
    cbn [UrlForm.is_basic UrlForm.name_of] in *.
    apply bool_decide_eq_true_1 in Hkind.
    destruct (list_elem_of_split _ _ Hkind) as (before & after & Hsplit).
    rewrite Hsplit, (initial_from_basic_first before t after url fs1 ft1); [|done| |].
    + eexists _, _. split; [reflexivity|]. split; [by rewrite lookup_insert_eq|].
      split; [done|]. by rewrite lookup_insert_ne.
    + intros n Hn. unfold getattr. rewrite Hothers; [done| |].
      * rewrite Hsplit. apply elem_of_app. by left.
      * intros [= ->]. pose proof basic_names_NoDup as Hnd. rewrite Hsplit in Hnd.
        apply NoDup_app in Hnd as (_ & Hnd & _). apply (Hnd t Hn). by left.
    + unfold getattr. by rewrite Hv.
  - destruct Hsaved as (Hblank & found & Hlookup & _ & Hct & Hoid).
    destruct (truthy (getattr url "content_type")) eqn:Hsome.
    + unfold update_field. rewrite H1, lookup_insert_ne, Hc1 by done.
      eexists _, _. split; [reflexivity|].
      split; [by rewrite lookup_insert_ne, lookup_insert_eq|].
      exists found. split; [done|]. intros _. unfold getattr. rewrite Hct, Hoid.
      split; [done|]. by rewrite lookup_insert_eq.
    + assert (Hzero : obj_ct found.2 = 0).
      { unfold getattr in Hsome. rewrite Hct in Hsome. cbn in Hsome.
        apply negb_false_iff in Hsome. by apply Z.eqb_eq. }
      rewrite initial_from_basic_none
        by (intros n Hn; unfold getattr; by rewrite (Hblank n Hn)).
      exists fs1, ft1. split; [done|]. split; [done|].
      exists found. split; [done|]. intros Hnonzero. by destruct Hnonzero.
Qed.

Lemma init_after_save_restores_type_witness :
  exists url w3 fs' ft',
    clean_and_save true
      (Sample.url_form {[ "url_type" := VStr "phone"; "phone" := VStr "555";
                          "manual_url" := VStr "https://example.com/";
                          "site" := VSite Sample.site1 ]}) = Return url w3
    /\ UrlForm_init SampleFields.capitalize SampleFields.supported url
         SampleFields.url_fields = inr fs'
    /\ fs' !! "url_type" = Some ft'
    /\ initial ft' = VStr "phone".
Proof.
  set (w := Sample.url_form {[ "url_type" := VStr "phone"; "phone" := VStr "555";
                               "manual_url" := VStr "https://example.com/";
                               "site" := VSite Sample.site1 ]}).
  assert (Hform : is_UrlForm w) by by_decide.
  destruct (clean_and_save true w) as [url w3|e w3] eqn:Hrun;
    [|vm_compute in Hrun; discriminate].
  destruct (init_after_save_restores_type w true url w3 SampleFields.capitalize
              SampleFields.supported
              SampleFields.url_fields _ _ Hform Hrun eq_refl eq_refl)
    as (fs' & ft' & Hinit & Hft & Hkind).
  exists url, w3, fs', ft'. split; [reflexivity|]. split; [exact Hinit|].
  split; [exact Hft|]. exact (proj1 Hkind).
Defined.

(** ** What [__init__] leaves alone *)

Lemma initial_from_basic_frame names i fs fs' :
  initial_from_basic names i fs = inr fs' ->
  forall n, n ≠ "url_type" -> fs' !! n = fs !! n.
Proof.
  induction names as [|m names IH]; cbn [initial_from_basic].
  - by intros [= <-].
  - destruct (truthy (getattr i m)); [|done].
    unfold update_field. destruct (fs !! "url_type"); [|done].
    intros [= <-] n Hn. by rewrite lookup_insert_ne.
Qed.

(** X16. [UrlForm.__init__] configures three fields and no other: a
    [url_grouper] field, when the form has one, becomes optional and
    hidden, keeping its initial value and choices; every field other than
    [url_type], [content_object] and [url_grouper] is as it was bound. *)
Theorem init_hides_grouper capitalize supported i fs ft fc :
  fs !! "url_type" = Some ft ->
  fs !! "content_object" = Some fc ->
  exists fs',
    UrlForm_init capitalize supported i fs = inr fs'
    /\ fs' !! "url_grouper"
       = (fun f => mkField false "HiddenInput" (initial f) (choices f))
           <$> fs !! "url_grouper"
    /\ forall n, n ≠ "url_type" -> n ≠ "content_object" -> n ≠ "url_grouper" ->
         fs' !! n = fs !! n.
Proof.
  intros Hft Hfc.
  destruct (UrlForm_init_unfold capitalize supported i fs ft Hft)
    as (fs1 & ft1 & H1 & _ & _ & Hother & Hgrouper & ->).
  assert (Hc1 : fs1 !! "content_object" = Some fc) by (by rewrite Hother).
  destruct (truthy (getattr i "content_type")).
  - unfold update_field. rewrite H1, lookup_insert_ne, Hc1 by done.
    eexists. split; [reflexivity|]. split.
    + by rewrite !lookup_insert_ne.
    + intros n Hn Hn1 Hn2. rewrite !lookup_insert_ne by done. by apply Hother.
  - destruct (initial_from_basic basic_type_names i fs1) as [e|fs'] eqn:Hloop.
    + exfalso. clear -Hloop H1.
      induction basic_type_names as [|m names IH]; cbn [initial_from_basic] in Hloop;
        [done|].
      destruct (truthy (getattr i m)); [|by apply IH].
      unfold update_field in Hloop. by rewrite H1 in Hloop.
    + pose proof (initial_from_basic_frame _ _ _ _ Hloop) as Hframe.
      exists fs'. split; [done|]. split.
      * by rewrite Hframe.
      * intros n Hn Hn1 Hn2. rewrite Hframe by done. by apply Hother.
Qed.

Lemma init_hides_grouper_witness :
  exists fs',
    UrlForm_init SampleFields.capitalize SampleFields.supported Sample.new_url
      (<["url_grouper" := SampleFields.plain]> SampleFields.url_fields) = inr fs'
    /\ fs' !! "url_grouper" = Some (mkField false "HiddenInput" VNone [])
    /\ fs' !! "site" = Some (mkField true "SiteSelectWidget" VNone []).
Proof.
  set (fs := <["url_grouper" := SampleFields.plain]> SampleFields.url_fields).
  assert (Htype : fs !! "url_type"
                  = Some (mkField true "UrlTypeSelectWidget" (VStr "relative_path") []))
    by (vm_compute; reflexivity).
  assert (Hobject : fs !! "content_object"
                    = Some (mkField false "ContentTypeObjectSelectWidget" VNone []))
    by (vm_compute; reflexivity).
  assert (Hg : fs !! "url_grouper" = Some SampleFields.plain)
    by (vm_compute; reflexivity).
  assert (Hsite : fs !! "site" = Some (mkField true "SiteSelectWidget" VNone []))
    by (vm_compute; reflexivity).
  destruct (init_hides_grouper SampleFields.capitalize SampleFields.supported Sample.new_url
              fs _ _ Htype Hobject) as (fs' & Hrun & Hgrouper & Hother).
  exists fs'. split; [exact Hrun|]. split.
  - rewrite Hgrouper, Hg. reflexivity.
  - rewrite (Hother "site"); [exact Hsite|discriminate..].
Defined.

(** ** [HtmlLinkForm.__init__] *)

(** X17. [HtmlLinkForm.__init__] on a form that has the field
    [url_grouper] returns and changes nothing but the initial value of
    that field: the key of the grouper of the instance when the instance
    has one and the key is not 0, the bound initial value otherwise. *)
Theorem link_init_sets_initial_only i fs fg :
  fs !! "url_grouper" = Some fg ->
  exists fs' fg',
    HtmlLinkForm_init i fs = inr fs'
    /\ fs' !! "url_grouper" = Some fg'
    /\ (forall n, n ≠ "url_grouper" -> fs' !! n = fs !! n)
    /\ required fg' = required fg
    /\ widget fg' = widget fg
    /\ choices fg' = choices fg
    /\ initial fg'
       = match column i "url_grouper" with
         | Some z => if (z =? 0)%Z then initial fg else VInt z
         | None => initial fg
         end.
Proof.
  intros Hfg. unfold HtmlLinkForm_init.
  destruct (column i "url_grouper") as [z|]; [|by exists fs, fg].
  cbn [truthy]. destruct (z =? 0)%Z; cbn [negb]; [by exists fs, fg|].
  unfold update_field. rewrite Hfg. eexists _, _. split; [reflexivity|].
  split; [by rewrite lookup_insert_eq|]. split; [|done].
  intros n Hn. by rewrite lookup_insert_ne.
Qed.

Lemma link_init_sets_initial_only_witness :
  exists fs' fg',
    HtmlLinkForm_init (mkInstance LinkPluginModel {[ "url_grouper" := VGrouper 10 ]})
      SampleFields.link_fields = inr fs'
    /\ fs' !! "url_grouper" = Some fg'
    /\ initial fg' = VInt 10
    /\ widget fg' = "HtmlLinkUrlSelectWidget".
Proof.
  set (i := mkInstance LinkPluginModel {[ "url_grouper" := VGrouper 10 ]}).
  assert (Hfield : SampleFields.link_fields !! "url_grouper"
                   = Some (mkField true "HtmlLinkUrlSelectWidget" VNone []))
    by (vm_compute; reflexivity).
  assert (Hcolumn : column i "url_grouper" = Some 10) by (vm_compute; reflexivity).
  destruct (link_init_sets_initial_only i SampleFields.link_fields _ Hfield)
    as (fs' & fg' & Hrun & Hfg & _ & _ & Hwidget & _ & Hinitial).
  exists fs', fg'. split; [exact Hrun|]. split; [exact Hfg|].
  split; [|exact Hwidget]. rewrite Hinitial, Hcolumn. reflexivity.
Defined.

(** ** The select2 widgets *)

Lemma Widget_build_attrs_lookup base_attrs extra_attrs k :
  Widget_build_attrs base_attrs extra_attrs !! k
  = match default ∅ extra_attrs !! k with
    | Some v => Some v
    | None => base_attrs !! k
    end.
Proof.
  unfold Widget_build_attrs.
  destruct (default ∅ extra_attrs !! k) as [v|] eqn:E.
  - by apply lookup_union_Some_l.
  - by apply lookup_union_r.
Qed.

Lemma setdefault_lookup key v d k :
  setdefault key v d !! k
  = if decide (k = key) then Some (default v (d !! key)) else d !! k.
Proof.
  unfold setdefault. destruct (decide (k = key)) as [->|Hne].
  - destruct (d !! key) as [x|] eqn:E; [done|]. by rewrite lookup_insert_eq.
  - destruct (d !! key); [done|]. by rewrite lookup_insert_ne.
Qed.

(** X18. [build_attrs] of the two select2 text widgets adds the
    autocomplete endpoint only as a default: a [data-select2-url] that
    the caller passed, in the extra attributes or else in the base
    attributes, is kept, and every other attribute is the one of the
    extra attributes or else of the base attributes.  The route is
    resolved before that, so a route that does not resolve fails the call
    even when the caller passed the attribute. *)
Theorem build_attrs_endpoint_is_default admin_reverse name base_attrs extra_attrs :
  match admin_reverse name with
  | Some url =>
      exists attrs,
        ContentTypeObjectSelectWidget.build_attrs admin_reverse name base_attrs extra_attrs
        = Some attrs
        /\ HtmlLinkUrlSelectWidget.build_attrs admin_reverse name base_attrs extra_attrs
           = Some attrs
        /\ attrs !! "data-select2-url"
           = Some (default (default (VStr url) (base_attrs !! "data-select2-url"))
                     (default ∅ extra_attrs !! "data-select2-url"))
        /\ forall k, k ≠ "data-select2-url" ->
             attrs !! k = match default ∅ extra_attrs !! k with
                          | Some v => Some v
                          | None => base_attrs !! k
                          end
  | None =>
      ContentTypeObjectSelectWidget.build_attrs admin_reverse name base_attrs extra_attrs
      = None
      /\ HtmlLinkUrlSelectWidget.build_attrs admin_reverse name base_attrs extra_attrs
         = None
  end.
Proof.
  unfold ContentTypeObjectSelectWidget.build_attrs, HtmlLinkUrlSelectWidget.build_attrs,
    ContentTypeObjectSelectWidget.get_url, HtmlLinkUrlSelectWidget.get_url.
  destruct (admin_reverse name) as [url|]; [|done].
  cbn [mbind option_bind]. eexists. split; [reflexivity|]. split; [reflexivity|].
  split.
  - rewrite setdefault_lookup, decide_True by done.
    rewrite Widget_build_attrs_lookup.
    by destruct (default ∅ extra_attrs !! "data-select2-url"),
      (base_attrs !! "data-select2-url").
  - intros k Hk. rewrite setdefault_lookup, decide_False by done.
    apply Widget_build_attrs_lookup.
Qed.
